(** * NYC taxi trip dashboard: the data pipeline of [app.py]

    A shallow embedding of the data-transformation code of [src/app.py]
    (loading, derived columns, cleaning, the sidebar filter and the chart
    aggregations) together with the properties stated about it.

    Modelling conventions.
    - A [DataFrame] is the list of its rows in positional order, each row
      paired with its index label.  A column is the list of the values of one
      field, a boolean mask is a [list bool], and [df[mask]] is
      [bool_index].
    - [float64] columns are Rocq's primitive binary64 floats; a missing value
      is [nan], comparisons with [nan] are false, as in NumPy.
    - [datetime64[ns]] values are integers (nanoseconds since 1970-01-01),
      calendar dates are day numbers since 1970-01-01.  The timestamp and
      integer columns are taken without missing values.
    - Python names that are rebound or mutated ([df], [filtered], ...) live
      in a store of frame objects; see [Module Script]. *)

From Stdlib Require Import ZArith List Bool String Floats Uint63 Lia.
From Stdlib Require Import Permutation Sorted ssreflect.
From stdpp Require Import base tactics option list gmap strings.
Import ListNotations.

#[local] Set Warnings "-rewrite-rw".

Local Open Scope string_scope.
Local Open Scope Z_scope.

(** ** float64 and datetime64 helpers *)

(** An [int64] read as a [float64] (NumPy's cast before a true division):
    rounded to nearest, exact up to 2^53.  The argument is taken in the
    [int64] range. *)
Definition float_of_Z (z : Z) : float :=
  if z <? 0 then PrimFloat.opp (PrimFloat.of_uint63 (Uint63.of_Z (- z)))
  else PrimFloat.of_uint63 (Uint63.of_Z z).

(** Ticks per second of [datetime64[ns]] / [timedelta64[ns]]. *)
Definition pps : Z := 1000000000.

(** [Series.dt.total_seconds()] on a timedelta given in ticks. *)
Definition total_seconds (td : Z) : float :=
  PrimFloat.div (float_of_Z td) (float_of_Z pps).

(** [Series.dt.hour]. *)
Definition dt_hour (t : Z) : Z := (t / (3600 * pps)) mod 24.

(** [Series.dt.date], as the number of days since 1970-01-01. *)
Definition dt_date (t : Z) : Z := t / (86400 * pps).

(** [Series.dt.dayofweek]: Monday is 0; 1970-01-01 was a Thursday. *)
Definition dt_dayofweek (t : Z) : Z := (dt_date t + 3) mod 7.

(** [Series.fillna(v)] on one float. *)
Definition fillna (v x : float) : float :=
  if PrimFloat.is_nan x then v else x.

(** [x > y] and [x < y] on floats, as booleans and as propositions. *)
Definition fgt (x y : float) : bool := PrimFloat.ltb y x.
Definition flt (x y : float) : bool := PrimFloat.ltb x y.
Definition FLt (x y : float) : Prop := PrimFloat.ltb x y = true.

(** ** Frames *)

(** Rows in positional order, each with its index label. *)
Definition DataFrame (A : Type) : Type := list (nat * A).

(** [df[name]]: one column, positionally. *)
Definition col {A B : Type} (f : A -> B) (df : DataFrame A) : list B :=
  List.map (fun ir => f (snd ir)) df.

(** [m1 & m2] on boolean columns. *)
Definition mask_and (m1 m2 : list bool) : list bool := zip_with andb m1 m2.

(** [df[mask]]: the rows whose mask entry is [True], labels kept. *)
Definition bool_index {A : Type} (df : DataFrame A) (mask : list bool)
  : DataFrame A :=
  List.map fst (List.filter snd (combine df mask)).

(** [df.reset_index(drop=True)]: labels become 0, 1, 2, ... *)
Definition reset_index {A : Type} (df : DataFrame A) : DataFrame A :=
  combine (seq 0 (length df)) (List.map snd df).

(** The frame [pd.read_parquet] / [pd.read_csv] builds from the rows of a
    file: a fresh [RangeIndex]. *)
Definition read_rows {A : Type} (file : list A) : DataFrame A :=
  combine (seq 0 (length file)) file.

(** ** Trip records *)

(** The columns of the parquet file that the program reads. *)
Record RawTrip : Type := mkRawTrip {
  tpep_pickup_datetime : Z;
  tpep_dropoff_datetime : Z;
  fare_amount : float;
  tip_amount : float;
  total_amount : float;
  trip_distance : float;
  PULocationID : Z;
  payment_type : Z
}.

(** A row of the frame [load_data] returns: the raw columns and the five
    columns added by lines 36-42. *)
Record Trip : Type := mkTrip {
  raw :> RawTrip;
  pickup_hour : Z;
  pickup_day : Z;
  pickup_date : Z;
  trip_duration_min : float;
  tip_pct : float
}.

(** Lines 36-42 on one row. *)
Definition derive_row (r : RawTrip) : Trip :=
  {| raw := r;
     pickup_hour := dt_hour (tpep_pickup_datetime r);
     pickup_day := dt_dayofweek (tpep_pickup_datetime r);
     pickup_date := dt_date (tpep_pickup_datetime r);
     trip_duration_min :=
       PrimFloat.div
         (total_seconds (tpep_dropoff_datetime r - tpep_pickup_datetime r))
         60%float;
     tip_pct :=
       fillna 0%float
         (PrimFloat.mul (PrimFloat.div (tip_amount r) (fare_amount r))
                        100%float) |}.

(** Lines 36-42 on the frame: five column assignments, row by row. *)
Definition derive (df : DataFrame RawTrip) : DataFrame Trip :=
  List.map (fun ir => (fst ir, derive_row (snd ir))) df.

(** Lines 45-47: three successive boolean selections. *)
Definition sanitize (df : DataFrame Trip) : DataFrame Trip :=
  let df := bool_index df
    (mask_and (List.map (fun x => fgt x 0%float) (col (fun r : Trip => fare_amount r) df))
              (List.map (fun x => flt x 200%float) (col (fun r : Trip => fare_amount r) df))) in
  let df := bool_index df
    (mask_and (List.map (fun x => fgt x 0%float) (col (fun r : Trip => trip_distance r) df))
              (List.map (fun x => flt x 50%float) (col (fun r : Trip => trip_distance r) df))) in
  let df := bool_index df
    (mask_and (List.map (fun x => fgt x 1%float) (col trip_duration_min df))
              (List.map (fun x => flt x 180%float) (col trip_duration_min df))) in
  df.

(** [load_data], lines 26-49, on the rows of the parquet file. *)
Definition load_data (file : list RawTrip) : DataFrame Trip :=
  let df := read_rows file in
  let df := derive df in
  let df := sanitize df in
  reset_index df.

(** The three bounds of the cleaning step, on one row. *)
Definition fare_ok (r : Trip) : Prop :=
  FLt 0%float (fare_amount r) /\ FLt (fare_amount r) 200%float.
Definition distance_ok (r : Trip) : Prop :=
  FLt 0%float (trip_distance r) /\ FLt (trip_distance r) 50%float.
Definition duration_ok (r : Trip) : Prop :=
  FLt 1%float (trip_duration_min r) /\ FLt (trip_duration_min r) 180%float.
Definition in_bounds (r : Trip) : Prop :=
  fare_ok r /\ distance_ok r /\ duration_ok r.

(** The same bounds as one boolean test. *)
Definition in_boundsb (r : Trip) : bool :=
  (fgt (fare_amount r) 0%float && flt (fare_amount r) 200%float)
  && (fgt (trip_distance r) 0%float && flt (trip_distance r) 50%float)
  && (fgt (trip_duration_min r) 1%float && flt (trip_duration_min r) 180%float).

(** ** Payment names (lines 60-63) *)

(** [payment_map], line 60. *)
Definition payment_map : gmap Z string :=
  <[1 := "Credit Card"]> (<[2 := "Cash"]> (<[3 := "No Charge"]>
  (<[4 := "Dispute"]> ∅))).

(** [Series.map(d)] with a dict: a key the dict lacks gives a missing value. *)
Definition map_dict {K V : Type} `{Countable K} (d : gmap K V) (c : list K)
  : list (option V) :=
  List.map (fun k => d !! k) c.

(** [Series.fillna(v)] on a column of objects. *)
Definition fillna_obj {V : Type} (v : V) (c : list (option V)) : list V :=
  List.map (default v) c.

(** A row of [df] once the [payment_name] column exists. *)
Record NamedTrip : Type := mkNamedTrip {
  trip :> Trip;
  payment_name : string
}.

(** [df[name] = column]: the new column is attached positionally. *)
Definition set_column {A B C : Type} (mk : A -> B -> C) (df : DataFrame A)
    (c : list B) : DataFrame C :=
  zip_with (fun ir v => (fst ir, mk (snd ir) v)) df c.

(** Lines 62-63: [df["payment_name"]] is the mapped payment type, with
    "Unknown" where the map has no entry. *)
Definition decode_payment (df : DataFrame Trip) : DataFrame NamedTrip :=
  set_column mkNamedTrip df
    (fillna_obj "Unknown"
       (map_dict payment_map (col (fun r : Trip => payment_type r) df))).

(** [Series.unique()]: the distinct values in order of first appearance. *)
Fixpoint unique (c : list string) : list string :=
  match c with
  | [] => []
  | x :: c' => x :: List.filter (fun y => negb (String.eqb x y)) (unique c')
  end.

(** [Series.isin(values)]. *)
Definition isin (c : list string) (values : list string) : list bool :=
  List.map (fun x => existsb (String.eqb x) values) c.

(** [Series.min()] and [Series.max()] of a date column; nothing for an
    empty column. *)
Definition col_min (c : list Z) : option Z :=
  match c with
  | [] => None
  | x :: c' => Some (fold_left Z.min c' x)
  end.
Definition col_max (c : list Z) : option Z :=
  match c with
  | [] => None
  | x :: c' => Some (fold_left Z.max c' x)
  end.

(** ** The sidebar filter (lines 75-79) *)

(** [filtered]: the conjunction of five boolean columns selects the rows.
    [date_range] and [hour_range] are the two-element values of the
    widgets, [payment_options] the selected names. *)
Definition filtered (df : DataFrame NamedTrip) (date_range : Z * Z)
    (hour_range : Z * Z) (payment_options : list string)
  : DataFrame NamedTrip :=
  bool_index df
    (mask_and (mask_and (mask_and (mask_and
      (List.map (fun d => fst date_range <=? d)
                (col (fun r : NamedTrip => pickup_date r) df))
      (List.map (fun d => d <=? snd date_range)
                (col (fun r : NamedTrip => pickup_date r) df)))
      (List.map (fun h => fst hour_range <=? h)
                (col (fun r : NamedTrip => pickup_hour r) df)))
      (List.map (fun h => h <=? snd hour_range)
                (col (fun r : NamedTrip => pickup_hour r) df)))
      (isin (col payment_name df) payment_options)).

(** The row test that the five masks of [filtered] amount to. *)
Definition selected (date_range hour_range : Z * Z)
    (payment_options : list string) (r : NamedTrip) : bool :=
  (fst date_range <=? pickup_date r) && (pickup_date r <=? snd date_range)
  && (fst hour_range <=? pickup_hour r) && (pickup_hour r <=? snd hour_range)
  && existsb (String.eqb (payment_name r)) payment_options.

(** Line 72, [filtered_df]: the rows whose payment name is selected. *)
Definition filtered_df (df : DataFrame NamedTrip)
    (payment_options : list string) : DataFrame NamedTrip :=
  bool_index df (isin (col payment_name df) payment_options).

(** ** Grouping and sorting *)

Section GroupBy.
Context {K : Type} (ltb eqb : K -> K -> bool).

(** Insertion into a strictly increasing list; a key already there is
    not repeated. *)
Fixpoint insert_uniq (x : K) (l : list K) : list K :=
  match l with
  | [] => [x]
  | y :: l' =>
      if ltb x y then x :: l
      else if ltb y x then y :: insert_uniq x l'
      else l
  end.

(** The distinct keys in increasing order: the group keys of a
    [groupby] (which sorts them), the labels of a [pivot]. *)
Definition sort_uniq (l : list K) : list K := fold_right insert_uniq [] l.

(** Number of rows of the group of key [k]. *)
Definition group_size (k : K) (keys : list K) : Z :=
  Z.of_nat (length (List.filter (eqb k) keys)).

(** [groupby(keys).size().reset_index(name=...)]: one row per distinct
    key, in increasing key order, with the size of its group. *)
Definition groupby_size (keys : list K) : list (K * Z) :=
  List.map (fun k => (k, group_size k keys)) (sort_uniq keys).
End GroupBy.

Section SortValues.
Context {A : Type} (key : A -> Z).

(** Insertion into a list sorted by decreasing [key]; among equal keys
    the inserted row comes first. *)
Fixpoint insert_desc (x : A) (l : list A) : list A :=
  match l with
  | [] => [x]
  | y :: l' => if key x <? key y then y :: insert_desc x l' else x :: l
  end.

(** [sort_values(key, ascending=False)].  pandas leaves the order of rows
    with equal keys to the sorting algorithm; here they keep their
    relative order. *)
Definition sort_values_desc (l : list A) : list A :=
  fold_right insert_desc [] l.

(** Keys never increase from the front to the back of the list. *)
Definition descending (l : list A) : Prop :=
  StronglySorted (fun a b => key b <= key a) l.
End SortValues.

(** Lexicographic order and equality on pairs of integers, for a
    [groupby] on two columns. *)
Definition pair_ltb (a b : Z * Z) : bool :=
  (fst a <? fst b) || ((fst a =? fst b) && (snd a <? snd b)).
Definition pair_eqb (a b : Z * Z) : bool :=
  (fst a =? fst b) && (snd a =? snd b).

(** ** Top pickup zones (lines 101-105) *)

(** A row of [zonelookup.csv]. *)
Record ZoneRow : Type := mkZoneRow {
  LocationID : Z;
  Borough : string;
  Zone : string
}.

(** A row of [top_zones] after line 103: the columns [PULocationID] and
    [trips]. *)
Record ZoneTrips : Type := mkZoneTrips {
  zt_PULocationID : Z;
  zt_trips : Z
}.

(** A row of [top_zones] after the merge of line 104. *)
Record TopZone : Type := mkTopZone {
  counted :> ZoneTrips;
  zone :> ZoneRow
}.

(** [left.merge(right, left_on="PULocationID", right_on="LocationID")]:
    an inner join, in the order of the left rows. *)
Definition merge (left : list ZoneTrips) (right : list ZoneRow)
  : list TopZone :=
  flat_map
    (fun l => List.map (mkTopZone l)
                (List.filter (fun r => zt_PULocationID l =? LocationID r) right))
    left.

(** Lines 103-105. *)
Definition top_zones (filtered : DataFrame NamedTrip)
    (zone_lookup : list ZoneRow) : list TopZone :=
  let top_zones :=
    List.map (fun kn => mkZoneTrips (fst kn) (snd kn))
      (groupby_size Z.ltb Z.eqb
         (col (fun r : NamedTrip => PULocationID r) filtered)) in
  let top_zones := merge top_zones zone_lookup in
  firstn 10 (sort_values_desc (fun r : TopZone => zt_trips r) top_zones).

(** ** Payment type breakdown (lines 140-145) *)

Definition payment_counts (filtered : DataFrame NamedTrip)
  : list (string * Z) :=
  sort_values_desc snd
    (groupby_size String.ltb String.eqb (col payment_name filtered)).

(** ** Trips by day of week and hour (lines 153-168) *)

(** A row of [filtered] once line 154 has added [pickup_day_of_week]. *)
Record DayTrip : Type := mkDayTrip {
  named :> NamedTrip;
  pickup_day_of_week : Z
}.

(** Line 154. *)
Definition add_day_of_week (filtered : DataFrame NamedTrip)
  : DataFrame DayTrip :=
  set_column mkDayTrip filtered
    (List.map dt_dayofweek
       (col (fun r : NamedTrip => tpep_pickup_datetime r) filtered)).

(** A row of [bar_data]. *)
Record BarRow : Type := mkBarRow {
  bar_day_of_week : Z;
  bar_hour : Z;
  bar_trips : Z;
  pickup_day_name : option string
}.

(** [weekday_order], lines 162-163, and [days_order], line 166. *)
Definition weekday_order : gmap Z string :=
  <[0 := "Monday"]> (<[1 := "Tuesday"]> (<[2 := "Wednesday"]>
  (<[3 := "Thursday"]> (<[4 := "Friday"]> (<[5 := "Saturday"]>
  (<[6 := "Sunday"]> ∅)))))).
Definition days_order : list string :=
  ["Monday"; "Tuesday"; "Wednesday"; "Thursday"; "Friday"; "Saturday";
   "Sunday"].

(** The two key columns of the [groupby] of line 157, row by row. *)
Definition day_hour_keys (filtered : DataFrame DayTrip) : list (Z * Z) :=
  List.map (fun ir : nat * DayTrip =>
              (pickup_day_of_week (snd ir), pickup_hour (snd ir)))
           filtered.

(** A group of line 157 with its size as a row of [bar_data], with the
    day name of line 164. *)
Definition bar_row (kn : Z * Z * Z) : BarRow :=
  {| bar_day_of_week := fst (fst kn);
     bar_hour := snd (fst kn);
     bar_trips := snd kn;
     pickup_day_name := weekday_order !! fst (fst kn) |}.

(** Lines 156-164: group sizes per (day, hour), then the day names. *)
Definition bar_data (filtered : DataFrame DayTrip) : list BarRow :=
  List.map bar_row
    (groupby_size pair_ltb pair_eqb (day_hour_keys filtered)).

(** A reshaped table: row labels, column labels and the rows of cells.
    The cells are trip counts and are kept as integers. *)
Record Pivot (V : Type) : Type := mkPivot {
  pv_index : list Z;
  pv_columns : list string;
  pv_values : list (list V)
}.
Arguments mkPivot {V} _ _ _.
Arguments pv_index {V} _.
Arguments pv_columns {V} _.
Arguments pv_values {V} _.

(** The cell of [pivot] for hour [h] and day name [c]: the [trips] of the
    row of [bar_data] with these labels, missing when there is none. *)
Definition pivot_cell (data : list BarRow) (h : Z) (c : string) : option Z :=
  option_map bar_trips
    (List.find
       (fun r => (bar_hour r =? h) &&
                 match pickup_day_name r with
                 | Some n => String.eqb n c
                 | None => false
                 end)
       data).

(** [bar_data.pivot(index="pickup_hour", columns="pickup_day_name",
    values="trips")]: the labels are the sorted distinct values that
    occur. *)
Definition pivot (data : list BarRow) : Pivot (option Z) :=
  let index := sort_uniq Z.ltb (List.map bar_hour data) in
  let columns := sort_uniq String.ltb (omap pickup_day_name data) in
  {| pv_index := index;
     pv_columns := columns;
     pv_values :=
       List.map (fun h => List.map (fun c => pivot_cell data h c) columns)
                index |}.

(** [.fillna(0)] on a table. *)
Definition pivot_fillna (v : Z) (p : Pivot (option Z)) : Pivot Z :=
  {| pv_index := pv_index p;
     pv_columns := pv_columns p;
     pv_values := List.map (List.map (default v)) (pv_values p) |}.

(** Position of a label among the column labels. *)
Fixpoint position (c : string) (columns : list string) : option nat :=
  match columns with
  | [] => None
  | c' :: columns' =>
      if String.eqb c c' then Some 0%nat
      else option_map S (position c columns')
  end.

(** [p[labels]]: the listed columns in the listed order; a label that is
    not a column raises [KeyError], here [None]. *)
Definition select_columns (labels : list string) (p : Pivot Z)
  : option (Pivot Z) :=
  match mapM (fun c => position c (pv_columns p)) labels with
  | Some js =>
      Some {| pv_index := pv_index p;
              pv_columns := labels;
              pv_values :=
                List.map (fun row => List.map (fun j => nth j row 0) js)
                         (pv_values p) |}
  | None => None
  end.

(** Lines 156-168: [bar_pivot]. *)
Definition bar_pivot (filtered : DataFrame DayTrip) : option (Pivot Z) :=
  let bar_data := bar_data filtered in
  let bar_pivot := pivot_fillna 0 (pivot bar_data) in
  select_columns days_order bar_pivot.

(** ** The script as a store transformer

    The module-level statements of [app.py] bind names to frame objects and
    assign a column of an existing object in place at lines 62, 63 and 154
    (and at line 164, on [bar_data], which [bar_data] above folds into the
    construction of that table).  Names are mapped to locations and
    locations to objects, so that an in-place assignment is seen through
    every name of the object and a selection [df[mask]] is a new object. *)
Module Script.

(** The objects the script builds. *)
Inductive Obj : Type :=
| OTrips (d : DataFrame Trip)
| ONamed (d : DataFrame NamedTrip)
| ODay (d : DataFrame DayTrip)
| OZones (t : list TopZone)
| OCounts (t : list (string * Z))
| OPivot (t : Pivot Z).

Record State : Type := mkState {
  heap : gmap nat Obj;
  env : gmap string nat;
  next : nat
}.


(** [x = e] where [e] evaluates to a new object [o]. *)
Definition bind (x : string) (o : Obj) (s : State) : State :=
  {| heap := <[next s := o]> (heap s);
     env := <[x := next s]> (env s);
     next := S (next s) |}.

(** The object a name stands for. *)
Definition deref (x : string) (s : State) : option Obj :=
  match env s !! x with
  | Some l => heap s !! l
  | None => None
  end.

(** [x[column] = ...]: the object of [x] is changed in place. *)
Definition update (x : string) (f : Obj -> option Obj) (s : State)
  : option State :=
  match env s !! x with
  | Some l =>
      match heap s !! l with
      | Some o =>
          match f o with
          | Some o' =>
              Some {| heap := <[l := o']> (heap s);
                      env := env s;
                      next := next s |}
          | None => None
          end
      | None => None
      end
  | None => None
  end.

(** What the statements read from outside: the two files and the values
    of the three sidebar widgets. *)
Record Inputs : Type := mkInputs {
  file : list RawTrip;
  zone_lookup : list ZoneRow;
  date_range : Z * Z;
  hour_range : Z * Z;
  payment_options : list string
}.

(** A statement either yields the next store or raises ([None]). *)
Definition stmt : Type := State -> option State.



(** Line 72: [filtered_df = df[...]]. *)
Definition line_72 (i : Inputs) : stmt :=
  fun s => match deref "df" s with
           | Some (ONamed d) =>
               Some (bind "filtered_df"
                       (ONamed (filtered_df d (payment_options i))) s)
           | _ => None
           end.

(** Lines 75-79: [filtered = df[...]]. *)
Definition line_75_79 (i : Inputs) : stmt :=
  fun s => match deref "df" s with
           | Some (ONamed d) =>
               Some (bind "filtered"
                       (ONamed (filtered d (date_range i) (hour_range i)
                                  (payment_options i))) s)
           | _ => None
           end.

(** Lines 103-105: [top_zones = ...]. *)
Definition line_103_105 (i : Inputs) : stmt :=
  fun s => match deref "filtered" s with
           | Some (ONamed d) =>
               Some (bind "top_zones" (OZones (top_zones d (zone_lookup i))) s)
           | _ => None
           end.

(** Lines 140-145: [payment_counts = ...]. *)
Definition line_140_145 : stmt :=
  fun s => match deref "filtered" s with
           | Some (ONamed d) =>
               Some (bind "payment_counts" (OCounts (payment_counts d)) s)
           | _ => None
           end.

(** Lines 153-154: the column is added to [filtered] unless it is
    already there. *)
Definition line_153_154 : stmt :=
  update "filtered"
    (fun o => match o with
              | ONamed d => Some (ODay (add_day_of_week d))
              | ODay d => Some (ODay d)
              | _ => None
              end).

(** Lines 156-168: [bar_pivot = ...]. *)
Definition line_156_168 : stmt :=
  fun s => match deref "filtered" s with
           | Some (ODay d) =>
               match bar_pivot d with
               | Some p => Some (bind "bar_pivot" (OPivot p) s)
               | None => None
               end
           | _ => None
           end.



(** No name points outside the allocated locations, and no two names
    share an object. *)
Definition wf (s : State) : Prop :=
  (forall x l, env s !! x = Some l -> (l < next s)%nat) /\
  (forall x y l, env s !! x = Some l -> env s !! y = Some l -> x = y).

(** A statement that leaves [df] bound to the same object, and that
    object as it is. *)
Definition keeps_df (c : stmt) : Prop :=
  forall s s', wf s -> c s = Some s' ->
               wf s' /\ deref "df" s' = deref "df" s /\
               env s' !! "df" = env s !! "df".

End Script.

(** The rows of a frame, labels dropped. *)
Definition rows {A : Type} (df : DataFrame A) : list A := List.map snd df.

(** Number of trips of a working subset picked up on day of week [d] in
    hour [h]. *)
Definition trips_at (filtered : DataFrame NamedTrip) (d h : Z) : Z :=
  Z.of_nat
    (length
       (List.filter
          (fun ir : nat * NamedTrip =>
             (dt_dayofweek (tpep_pickup_datetime (snd ir)) =? d)
             && (pickup_hour (snd ir) =? h))
          filtered)).

(** Every day of the week, Monday (0) to Sunday (6), has a trip in the
    subset. *)
Definition all_days_present (filtered : DataFrame NamedTrip) : Prop :=
  forall d, 0 <= d <= 6 ->
    In d (List.map dt_dayofweek
            (col (fun r : NamedTrip => tpep_pickup_datetime r) filtered)).

(** Every hour of the day, 0 to 23, has a trip in the subset. *)
Definition all_hours_present (filtered : DataFrame NamedTrip) : Prop :=
  forall h, 0 <= h <= 23 ->
    In h (col (fun r : NamedTrip => pickup_hour r) filtered).

(** The pickup hours of the subset are hours of the day. *)
Definition hours_in_range (filtered : DataFrame NamedTrip) : Prop :=
  Forall (fun h => 0 <= h <= 23)
         (col (fun r : NamedTrip => pickup_hour r) filtered).

(** ** Sample inputs

    Small files on which the definitions are evaluated below. *)

(** One day in ticks. *)
Definition day_ticks : Z := 86400 * pps.

(** A trip that starts [h] hours into day [d] (days since 1970-01-01) and
    lasts [secs] seconds. *)
Definition sample_trip (d h secs : Z) (fare tip distance : float)
    (pu pt : Z) : RawTrip :=
  {| tpep_pickup_datetime := d * day_ticks + h * 3600 * pps;
     tpep_dropoff_datetime := d * day_ticks + h * 3600 * pps + secs * pps;
     fare_amount := fare;
     tip_amount := tip;
     total_amount := PrimFloat.add fare tip;
     trip_distance := distance;
     PULocationID := pu;
     payment_type := pt |}.

(** The record of the tip example: a fare of 0 with a tip of 5. *)
Definition zero_fare_trip : RawTrip :=
  sample_trip 5 9 600 0%float 5%float 3%float 100 2.

(** Seven rows: three pass the cleaning step twice over (two of them
    equal), the others fail one bound each or have a missing distance. *)
Definition sample_file : list RawTrip :=
  [ sample_trip 4 8 600 10%float 2%float 3%float 100 1;
    zero_fare_trip;
    sample_trip 5 9 30 10%float 5%float 3%float 100 2;
    sample_trip 6 23 900 20%float 0%float 4%float 7 9;
    sample_trip 6 23 900 20%float 0%float 4%float 7 9;
    sample_trip 7 23 900 20%float 0%float nan 7 9;
    sample_trip 10 0 900 20%float 0%float 4%float 8 3 ].

(** One trip at noon on each day from Monday 1970-01-05 to Sunday
    1970-01-11. *)
Definition week_file : list RawTrip :=
  List.map
    (fun d => sample_trip d 12 600 10%float 2%float 3%float 100 1)
    [4; 5; 6; 7; 8; 9; 10].

(** The working subset of [week_file] under the full selection. *)
Definition week_subset : DataFrame NamedTrip :=
  filtered (decode_payment (load_data week_file)) (4, 10) (0, 23)
    ["Credit Card"].

Definition sample_zones : list ZoneRow :=
  [ {| LocationID := 7; Borough := "Queens"; Zone := "Astoria" |};
    {| LocationID := 100; Borough := "Manhattan";
       Zone := "Garment District" |} ].


(** ** Key metrics and average fare by hour (lines 86, 112-117) *)

(** Line 86, "Total Trips": [len(filtered)]. *)
Definition total_trips {A : Type} (filtered : DataFrame A) : Z :=
  Z.of_nat (length filtered).

Section SortValuesAsc.
Context {A : Type} (key : A -> Z).

(** Insertion into a list sorted by increasing [key]; among equal keys
    the inserted row comes first. *)
Fixpoint insert_asc (x : A) (l : list A) : list A :=
  match l with
  | [] => [x]
  | y :: l' => if key y <? key x then y :: insert_asc x l' else x :: l
  end.

(** [sort_values(key)], ascending. *)
Definition sort_values_asc (l : list A) : list A :=
  fold_right insert_asc [] l.
End SortValuesAsc.

Section AvgFare.
(** The mean of a group of [float64] values, as pandas computes it from
    the values of the group in row order.  Its rounding is not modelled:
    the table below is built for any such function. *)
Variable mean : list float -> float.

(** The [fare_amount] values of the group of hour [h], in row order. *)
Definition hour_fares (filtered : DataFrame NamedTrip) (h : Z)
  : list float :=
  col (fun r : NamedTrip => fare_amount r)
    (List.filter (fun ir : nat * NamedTrip => pickup_hour (snd ir) =? h)
                 filtered).

(** Lines 112-117: one row per group of [pickup_hour], with the mean fare
    of the group, sorted by hour. *)
Definition avg_fare_hour (filtered : DataFrame NamedTrip)
  : list (Z * float) :=
  sort_values_asc fst
    (List.map (fun h => (h, mean (hour_fares filtered h)))
       (sort_uniq Z.ltb
          (col (fun r : NamedTrip => pickup_hour r) filtered))).
End AvgFare.

(** The table of line 104, before it is sorted and cut to ten rows. *)
Definition merged_zones (filtered : DataFrame NamedTrip)
    (zone_lookup : list ZoneRow) : list TopZone :=
  merge
    (List.map (fun kn => mkZoneTrips (fst kn) (snd kn))
       (groupby_size Z.ltb Z.eqb
          (col (fun r : NamedTrip => PULocationID r) filtered)))
    zone_lookup.



(** Sum of a column of integers, [Series.sum()]. *)
Definition sum_Z (c : list Z) : Z := fold_right Z.add 0 c.

(** Strictly increasing for an order given as a boolean test. *)
Definition increasing {K : Type} (ltb : K -> K -> bool) (l : list K) : Prop :=
  StronglySorted (fun a b => ltb a b = true) l.

(** * Properties *)

(** ** Masks and selections *)

Section Selections.
Context {A : Type}.
Implicit Types (df : DataFrame A) (p q : A -> bool).

Lemma mask_and_map {B : Type} (f g : B -> bool) (l : list B) :
  mask_and (List.map f l) (List.map g l)
  = List.map (fun x => f x && g x) l.
Proof.
  induction l as [|x l IH]; simpl; first done.
  by rewrite -IH.
Qed.

Lemma map_col {B C : Type} (f : B -> C) (g : A -> B) df :
  List.map f (col g df) = col (fun r => f (g r)) df.
Proof. by rewrite /col List.map_map. Qed.

Lemma mask_and_col p q df :
  mask_and (col p df) (col q df) = col (fun r => p r && q r) df.
Proof. by rewrite /col mask_and_map. Qed.

(** A selection by a mask computed row by row is a [filter]. *)
Lemma bool_index_col p df :
  bool_index df (col p df) = List.filter (fun ir => p (snd ir)) df.
Proof.
  rewrite /bool_index /col.
  induction df as [|[i r] df IH]; simpl; first done.
  destruct (p r); simpl; by rewrite IH.
Qed.

Lemma filter_filter (f g : nat * A -> bool) df :
  List.filter g (List.filter f df) = List.filter (fun x => f x && g x) df.
Proof.
  induction df as [|x df IH]; simpl; first done.
  destruct (f x); simpl; last done.
  destruct (g x); by rewrite IH.
Qed.

Lemma filter_all (f : nat * A -> bool) df :
  Forall (fun x => f x = true) df -> List.filter f df = df.
Proof.
  induction 1 as [|x l Hx _ IH]; simpl; first done.
  by rewrite Hx IH.
Qed.

Lemma filter_none (f : nat * A -> bool) df :
  Forall (fun x => f x = false) df -> List.filter f df = [].
Proof.
  induction 1 as [|x l Hx _ IH]; simpl; first done.
  by rewrite Hx IH.
Qed.

Lemma filter_sublist (f : nat * A -> bool) df :
  sublist (List.filter f df) df.
Proof.
  induction df as [|x df IH]; simpl; first constructor.
  destruct (f x); by constructor.
Qed.

Lemma rows_filter_Forall (P : A -> Prop) (f : nat * A -> bool) df :
  (forall x, f x = true -> P (snd x)) ->
  Forall P (rows (List.filter f df)).
Proof.
  intros Hf. rewrite /rows.
  induction df as [|x df IH]; simpl; first constructor.
  destruct (f x) eqn:E; simpl; last done.
  constructor; auto.
Qed.

Lemma rows_reset_index df : rows (reset_index df) = rows df.
Proof.
  rewrite /rows /reset_index -(List.length_map snd df).
  generalize (List.map snd df) 0%nat.
  induction l as [|x l IH]; intros n; simpl; first done.
  by rewrite IH.
Qed.

Lemma labels_reset_index df :
  List.map fst (reset_index df) = seq 0 (length df).
Proof.
  rewrite /reset_index -(List.length_map snd df).
  generalize (List.map snd df) 0%nat.
  induction l as [|x l IH]; intros n; simpl; first done.
  by rewrite IH.
Qed.
End Selections.

Lemma rows_set_column {A B C : Type} (mk : A -> B -> C) (get : C -> A)
    (f : A -> B) (df : DataFrame A) :
  (forall a b, get (mk a b) = a) ->
  List.map get (rows (set_column mk df (col f df))) = rows df.
Proof.
  intros Hget. rewrite /rows /set_column /col.
  induction df as [|[i r] df IH]; simpl; first done.
  by rewrite Hget IH.
Qed.

Lemma labels_set_column {A B C : Type} (mk : A -> B -> C) (f : A -> B)
    (df : DataFrame A) :
  List.map fst (set_column mk df (col f df)) = List.map fst df.
Proof.
  rewrite /set_column /col.
  induction df as [|[i r] df IH]; simpl; first done.
  by rewrite IH.
Qed.

Lemma set_column_col {A B C : Type} (mk : A -> B -> C) (f : A -> B)
    (df : DataFrame A) :
  set_column mk df (col f df)
  = List.map (fun ir => (fst ir, mk (snd ir) (f (snd ir)))) df.
Proof.
  rewrite /set_column /col.
  induction df as [|[i r] df IH]; simpl; first done.
  by rewrite IH.
Qed.

(** ** The cleaning step *)

Lemma in_boundsb_spec (r : Trip) : in_boundsb r = true <-> in_bounds r.
Proof.
  rewrite /in_boundsb /in_bounds /fare_ok /distance_ok /duration_ok
          /FLt /fgt /flt !andb_true_iff.
  tauto.
Qed.

(** The three selections of lines 45-47 keep the rows that pass all three
    tests. *)
Lemma sanitize_filter (df : DataFrame Trip) :
  sanitize df = List.filter (fun ir => in_boundsb (snd ir)) df.
Proof.
  rewrite /sanitize /in_boundsb.
  rewrite !map_col !mask_and_col !bool_index_col !filter_filter.
  apply List.filter_ext. intros x. by rewrite andb_assoc.
Qed.

Lemma sanitize_idempotent (df : DataFrame Trip) :
  sanitize (sanitize df) = sanitize df.
Proof.
  rewrite !sanitize_filter filter_filter.
  apply List.filter_ext. intros x. by destruct (in_boundsb _).
Qed.

Lemma in_bounds_sanitize (df : DataFrame Trip) :
  Forall in_bounds (rows (sanitize df)).
Proof.
  rewrite sanitize_filter. apply rows_filter_Forall.
  intros x. apply in_boundsb_spec.
Qed.

Lemma in_bounds_load_data (file : list RawTrip) :
  Forall in_bounds (rows (load_data file)).
Proof. rewrite /load_data rows_reset_index. apply in_bounds_sanitize. Qed.

(** ** The filter *)

(** The five masks of lines 75-79 keep the rows that pass [selected]. *)
Lemma filtered_filter (df : DataFrame NamedTrip) (dr hr : Z * Z)
    (po : list string) :
  filtered df dr hr po
  = List.filter (fun ir => selected dr hr po (snd ir)) df.
Proof.
  rewrite /filtered /isin /selected.
  by rewrite !map_col !mask_and_col bool_index_col.
Qed.

Lemma decode_payment_map (df : DataFrame Trip) :
  decode_payment df
  = List.map
      (fun ir =>
         (fst ir,
          mkNamedTrip (snd ir)
            (default "Unknown" (payment_map !! payment_type (snd ir)))))
      df.
Proof.
  rewrite /decode_payment /fillna_obj /map_dict !map_col.
  by rewrite set_column_col.
Qed.

Lemma rows_decode_payment (df : DataFrame Trip) :
  List.map trip (rows (decode_payment df)) = rows df.
Proof.
  rewrite /decode_payment /fillna_obj /map_dict !map_col.
  by apply rows_set_column.
Qed.

Lemma labels_decode_payment (df : DataFrame Trip) :
  List.map fst (decode_payment df) = List.map fst df.
Proof.
  rewrite /decode_payment /fillna_obj /map_dict !map_col.
  by apply labels_set_column.
Qed.

Lemma in_bounds_decode_payment (df : DataFrame Trip) :
  Forall in_bounds (rows df) ->
  Forall (fun r : NamedTrip => in_bounds r) (rows (decode_payment df)).
Proof.
  rewrite -(rows_decode_payment df). generalize (rows (decode_payment df)).
  intros l. rewrite List.Forall_map. done.
Qed.

Lemma Forall_rows_sublist {A : Type} (P : A -> Prop) (f df : DataFrame A) :
  sublist f df -> Forall P (rows df) -> Forall P (rows f).
Proof.
  rewrite /rows. induction 1 as [|x l1 l2 _ IH|x l1 l2 _ IH]; simpl.
  - done.
  - inversion 1; subst. constructor; auto.
  - inversion 1; subst. auto.
Qed.

Lemma filtered_sublist (df : DataFrame NamedTrip) (dr hr : Z * Z)
    (po : list string) :
  sublist (filtered df dr hr po) df.
Proof. rewrite filtered_filter. apply filter_sublist. Qed.

Lemma isin_nil (c : list string) : Forall (fun b => b = false) (isin c []).
Proof. rewrite /isin. induction c; simpl; by constructor. Qed.

(** ** Bounds of the hour and of the dates *)

Lemma dt_hour_range (t : Z) : 0 <= dt_hour t <= 23.
Proof.
  rewrite /dt_hour.
  pose proof (Z.mod_pos_bound (t / (3600 * pps)) 24). lia.
Qed.

Lemma dt_dayofweek_range (t : Z) : 0 <= dt_dayofweek t <= 6.
Proof.
  rewrite /dt_dayofweek.
  pose proof (Z.mod_pos_bound (dt_date t + 3) 7). lia.
Qed.

Lemma fold_min_le (c : list Z) (x : Z) :
  fold_left Z.min c x <= x /\ Forall (fun y => fold_left Z.min c x <= y) c.
Proof.
  revert x. induction c as [|y c IH]; intros x; simpl.
  - split; [lia | constructor].
  - destruct (IH (Z.min x y)) as [H1 H2]. split; first lia.
    constructor; [lia | done].
Qed.

Lemma fold_max_ge (c : list Z) (x : Z) :
  x <= fold_left Z.max c x /\ Forall (fun y => y <= fold_left Z.max c x) c.
Proof.
  revert x. induction c as [|y c IH]; intros x; simpl.
  - split; [lia | constructor].
  - destruct (IH (Z.max x y)) as [H1 H2]. split; first lia.
    constructor; [lia | done].
Qed.

Lemma col_min_le (c : list Z) (lo : Z) :
  col_min c = Some lo -> Forall (fun y => lo <= y) c.
Proof.
  destruct c as [|x c]; simpl; first done.
  intros [= <-]. destruct (fold_min_le c x). by constructor.
Qed.

Lemma col_max_ge (c : list Z) (hi : Z) :
  col_max c = Some hi -> Forall (fun y => y <= hi) c.
Proof.
  destruct c as [|x c]; simpl; first done.
  intros [= <-]. destruct (fold_max_ge c x). by constructor.
Qed.

(** Every value of a column is among its [unique] values. *)
Lemma unique_In (c : list string) (x : string) :
  In x c -> In x (unique c).
Proof.
  induction c as [|y c IH]; simpl; first done.
  destruct (String.eqb_spec y x) as [->|Hne]; first by left.
  intros [?|Hin]; first done. right.
  apply List.filter_In. split; first by apply IH.
  by destruct (String.eqb_spec y x).
Qed.

Lemma existsb_eqb_In (x : string) (l : list string) :
  In x l -> existsb (String.eqb x) l = true.
Proof.
  intros Hin. apply List.existsb_exists. exists x. split; first done.
  apply String.eqb_refl.
Qed.

Lemma pickup_hour_load_data (file : list RawTrip) :
  Forall (fun r : Trip => 0 <= pickup_hour r <= 23) (rows (load_data file)).
Proof.
  rewrite /load_data rows_reset_index.
  apply (Forall_rows_sublist _ _ (derive (read_rows file))).
  - rewrite sanitize_filter. apply filter_sublist.
  - rewrite /rows /derive List.map_map. apply List.Forall_map.
    apply List.Forall_forall. intros x _. simpl. apply dt_hour_range.
Qed.

Lemma sublist_map {A B : Type} (f : A -> B) (l1 l2 : list A) :
  sublist l1 l2 -> sublist (List.map f l1) (List.map f l2).
Proof. induction 1; simpl; by constructor. Qed.

Lemma sublist_Forall_In {A : Type} (l1 l2 : list A) :
  sublist l1 l2 -> Forall (fun x => In x l2) l1.
Proof.
  intros Hsub. apply List.Forall_forall. intros x Hx.
  apply list_elem_of_In. apply (elem_of_sublist l1); last done.
  by apply list_elem_of_In.
Qed.

Lemma add_day_of_week_map (f : DataFrame NamedTrip) :
  add_day_of_week f
  = List.map
      (fun ir => (fst ir,
                  mkDayTrip (snd ir)
                    (dt_dayofweek (tpep_pickup_datetime (snd ir)))))
      f.
Proof. by rewrite /add_day_of_week map_col set_column_col. Qed.

Lemma rows_add_day_of_week (f : DataFrame NamedTrip) :
  List.map named (rows (add_day_of_week f)) = rows f.
Proof. rewrite /add_day_of_week map_col. by apply rows_set_column. Qed.

(** ** Derived tip percentage *)

(** C1 (evaluation at the failing input).  For the record with
    [fare_amount = 0] and [tip_amount = 5] line 42 computes
    [5 / 0 * 100], which is [+inf] and not a missing value, so [fillna(0)]
    leaves it: the derived [tip_pct] is infinite, not 0. *)
Theorem tip_pct_zero_fare_is_infinite :
  fare_amount zero_fare_trip = 0%float /\
  tip_amount zero_fare_trip = 5%float /\
  tip_pct (derive_row zero_fare_trip) = infinity /\
  PrimFloat.eqb (tip_pct (derive_row zero_fare_trip)) 0%float = false.
Proof. repeat split; reflexivity. Qed.

(** Where the quotient is a missing value, the tip percentage is 0: a fare
    and a tip of 0, and a missing fare. *)
Example tip_pct_nan_is_zero :
  tip_pct (derive_row (sample_trip 5 9 600 0%float 0%float 3%float 100 2))
  = 0%float /\
  tip_pct (derive_row (sample_trip 5 9 600 nan 5%float 3%float 100 2))
  = 0%float.
Proof. split; reflexivity. Qed.

(** A finite quotient is kept. *)
Example tip_pct_regular :
  tip_pct (derive_row (sample_trip 4 8 600 10%float 2%float 3%float 100 1))
  = 20%float.
Proof. reflexivity. Qed.

(** ** The clean dataset *)

(** C3.  Every row of the frame returned by [load_data] satisfies the three
    bounds [0 < fare_amount < 200], [0 < trip_distance < 50] and
    [1 < trip_duration_min < 180]; so does every row of what the later
    steps build from it: the frame with payment names, each of the two
    selections and the subset with the day-of-week column. *)
Theorem clean_dataset_within_bounds (file : list RawTrip) :
  Forall in_bounds (rows (load_data file)) /\
  Forall (fun r : NamedTrip => in_bounds r)
         (rows (decode_payment (load_data file))) /\
  (forall po,
     Forall (fun r : NamedTrip => in_bounds r)
            (rows (filtered_df (decode_payment (load_data file)) po))) /\
  (forall dr hr po,
     Forall (fun r : NamedTrip => in_bounds r)
            (rows (filtered (decode_payment (load_data file)) dr hr po)) /\
     Forall (fun r : DayTrip => in_bounds r)
            (rows (add_day_of_week
                     (filtered (decode_payment (load_data file)) dr hr po)))).
Proof.
  pose proof (in_bounds_decode_payment _ (in_bounds_load_data file)) as Hd.
  split; first apply in_bounds_load_data.
  split; first done.
  split.
  - intros po. eapply Forall_rows_sublist; last exact Hd.
    rewrite /filtered_df /isin map_col bool_index_col. apply filter_sublist.
  - intros dr hr po.
    assert (Hf : Forall (fun r : NamedTrip => in_bounds r)
              (rows (filtered (decode_payment (load_data file)) dr hr po))).
    { eapply Forall_rows_sublist; last exact Hd. apply filtered_sublist. }
    split; first done.
    rewrite -(rows_add_day_of_week _) in Hf.
    exact (proj1 (List.Forall_map _ _ _) Hf).
Qed.

(** C7.  Applying the three-bound selection to a frame whose rows all
    satisfy the three bounds returns the same frame: the same rows, with
    the same labels, in the same order. *)
Theorem sanitize_clean_identity (df : DataFrame Trip) :
  Forall in_bounds (rows df) -> sanitize df = df.
Proof.
  intros Hall. rewrite sanitize_filter. apply filter_all.
  apply (proj1 (List.Forall_map _ _ _)) in Hall.
  eapply List.Forall_impl; last exact Hall.
  intros x Hx. by apply in_boundsb_spec.
Qed.

Lemma sanitize_clean_identity_witness :
  sanitize (load_data sample_file) = load_data sample_file.
Proof.
  apply (sanitize_clean_identity (load_data sample_file)).
  vm_compute. repeat constructor.
Defined.

(** ** The filter engine *)

(** C9.  With no payment type selected the selection of lines 75-79 is the
    empty frame, whatever the frame, the date range and the hour range. *)
Theorem filtered_empty_selection (df : DataFrame NamedTrip)
    (date_range hour_range : Z * Z) :
  filtered df date_range hour_range [] = [].
Proof.
  rewrite filtered_filter. apply filter_none.
  apply List.Forall_forall. intros x _.
  rewrite /selected /=. by rewrite andb_false_r.
Qed.

(** C10.  The working subset is a subsequence of the clean dataset: its
    labelled rows are rows of the clean dataset in the same relative order,
    and no label occurs twice (the labels of the clean dataset are
    0, 1, 2, ...). *)
Theorem filtered_is_subsequence (file : list RawTrip)
    (date_range hour_range : Z * Z) (payment_options : list string) :
  let df := decode_payment (load_data file) in
  let f := filtered df date_range hour_range payment_options in
  sublist f df /\
  Forall (fun x => In x df) f /\
  List.map fst df = seq 0 (length df) /\
  NoDup (List.map fst f).
Proof.
  intros df f.
  assert (Hsub : sublist f df) by apply filtered_sublist.
  assert (Hlab : List.map fst df = seq 0 (length df)).
  { rewrite /df labels_decode_payment /load_data labels_reset_index.
    f_equal. rewrite -(List.length_map fst (decode_payment _)).
    by rewrite labels_decode_payment labels_reset_index List.length_seq. }
  repeat split; [done | by apply sublist_Forall_In | done |].
  apply (sublist_NoDup _ (List.map fst df)); last by apply sublist_map.
  rewrite Hlab. apply NoDup_seq.
Qed.

(** C4.  With the date range from the earliest to the latest pickup date
    of the clean dataset, the hour range 0 to 23 and all payment names of
    the data selected, the selection of lines 75-79 is the clean dataset
    itself: the same rows with the same labels in the same order. *)
Theorem filtered_full_selection (file : list RawTrip) (min_date max_date : Z) :
  let df := decode_payment (load_data file) in
  col_min (col (fun r : NamedTrip => pickup_date r) df) = Some min_date ->
  col_max (col (fun r : NamedTrip => pickup_date r) df) = Some max_date ->
  filtered df (min_date, max_date) (0, 23) (unique (col payment_name df))
  = df.
Proof.
  intros df Hmin Hmax.
  apply col_min_le in Hmin. apply col_max_ge in Hmax.
  rewrite filtered_filter. apply filter_all.
  rewrite /col !List.Forall_map in Hmin Hmax.
  pose proof (pickup_hour_load_data file) as Hh.
  rewrite -(rows_decode_payment _) -/df /rows !List.Forall_map in Hh.
  apply List.Forall_forall. intros x Hx.
  rewrite !List.Forall_forall in Hmin Hmax Hh.
  specialize (Hmin x Hx). specialize (Hmax x Hx). specialize (Hh x Hx).
  simpl in *. rewrite /selected /=.
  rewrite !andb_true_iff !Z.leb_le. repeat split; try lia.
  apply existsb_eqb_In, unique_In.
  rewrite /col. apply List.in_map_iff. by exists x.
Qed.

Lemma filtered_full_selection_witness :
  filtered (decode_payment (load_data sample_file)) (4, 10) (0, 23)
    (unique (col payment_name (decode_payment (load_data sample_file))))
  = decode_payment (load_data sample_file).
Proof.
  apply (filtered_full_selection sample_file 4 10); reflexivity.
Defined.

(** ** Sorting by a key, descending *)

Section SortValuesFacts.
Context {A : Type} (key : A -> Z).

Lemma insert_desc_perm (x : A) (l : list A) :
  Permutation (insert_desc key x l) (x :: l).
Proof.
  induction l as [|y l IH]; simpl; first done.
  destruct (key x <? key y); last done.
  rewrite IH. apply perm_swap.
Qed.

Lemma sort_values_desc_perm (l : list A) :
  Permutation (sort_values_desc key l) l.
Proof.
  induction l as [|x l IH]; simpl; first done.
  by rewrite insert_desc_perm IH.
Qed.

Lemma insert_desc_descending (x : A) (l : list A) :
  descending key l -> descending key (insert_desc key x l).
Proof.
  rewrite /descending.
  induction 1 as [|y l Hl IH Hy]; simpl.
  - repeat constructor.
  - destruct (Z.ltb_spec (key x) (key y)) as [Hlt|Hge].
    + constructor; first done.
      apply List.Forall_forall. intros z Hz.
      apply (Permutation_in _ (insert_desc_perm x l)) in Hz.
      destruct Hz as [<-|Hz]; first lia.
      rewrite List.Forall_forall in Hy. by apply Hy.
    + constructor; first by constructor.
      constructor; first lia.
      eapply List.Forall_impl; last exact Hy.
      simpl. intros z Hz. lia.
Qed.

Lemma sort_values_desc_descending (l : list A) :
  descending key (sort_values_desc key l).
Proof.
  induction l as [|x l IH]; simpl; first constructor.
  by apply insert_desc_descending.
Qed.

Lemma descending_firstn (n : nat) (l : list A) :
  descending key l -> descending key (firstn n l).
Proof.
  rewrite /descending. intros Hl. revert n.
  induction Hl as [|y l Hl IH Hy]; intros [|n]; simpl; try constructor.
  - apply IH.
  - apply List.Forall_forall. intros z Hz.
    rewrite List.Forall_forall in Hy. apply Hy.
    revert Hz. clear. revert n.
    induction l as [|a l IH]; intros [|n]; simpl; try done.
    intros [?|?]; [by left | right; eauto].
Qed.

Lemma firstn_In (n : nat) (l : list A) (x : A) :
  In x (firstn n l) -> In x l.
Proof.
  revert n. induction l as [|a l IH]; intros [|n]; simpl; try done.
  intros [?|?]; [by left | right; eauto].
Qed.
End SortValuesFacts.

(** ** Group keys and sizes *)

Section GroupByFacts.
Context {K : Type} (ltb eqb : K -> K -> bool).

Lemma insert_uniq_In (x y : K) (l : list K) :
  In y (insert_uniq ltb x l) -> y = x \/ In y l.
Proof.
  induction l as [|z l IH]; simpl.
  - intros [<-|[]]. by left.
  - destruct (ltb x z); simpl.
    + intros [<-|H]; [by left | by right].
    + destruct (ltb z x); simpl; last by right.
      intros [<-|H]; first by right; left.
      destruct (IH H); [by left | by right; right].
Qed.

(** A group key is a value of the key column. *)
Lemma sort_uniq_In (y : K) (l : list K) :
  In y (sort_uniq ltb l) -> In y l.
Proof.
  induction l as [|x l IH]; simpl; first done.
  intros H. destruct (insert_uniq_In _ _ _ H) as [->|H']; first by left.
  right. by apply IH.
Qed.

Lemma groupby_size_In (k : K) (n : Z) (keys : list K) :
  In (k, n) (groupby_size ltb eqb keys) ->
  In k keys /\ n = group_size eqb k keys.
Proof.
  rewrite /groupby_size. intros H.
  apply List.in_map_iff in H. destruct H as (k' & [= -> <-] & Hin).
  split; last done. by apply sort_uniq_In in Hin.
Qed.
End GroupByFacts.

(** ** Top pickup zones *)

Lemma merge_In (left : list ZoneTrips) (right : list ZoneRow) (r : TopZone) :
  In r (merge left right) ->
  In (counted r) left /\ In (zone r) right /\
  zt_PULocationID r = LocationID r.
Proof.
  rewrite /merge. intros H.
  apply List.in_flat_map in H. destruct H as (l & Hl & H).
  apply List.in_map_iff in H. destruct H as (z & <- & Hz).
  apply List.filter_In in Hz. destruct Hz as [Hz Heq].
  simpl. repeat split; try done. by apply Z.eqb_eq.
Qed.

(** C6.  [top_zones] has at most 10 rows, in decreasing order of [trips],
    and each row joins a pickup location of the subset, with the number of
    its trips, to a row of the zone table with the same identifier. *)
Theorem top_zones_spec (filtered : DataFrame NamedTrip)
    (zone_lookup : list ZoneRow) :
  let t := top_zones filtered zone_lookup in
  let ids := col (fun r : NamedTrip => PULocationID r) filtered in
  (length t <= 10)%nat /\
  descending (fun r : TopZone => zt_trips r) t /\
  Forall (fun r : TopZone =>
            In (zone r) zone_lookup /\
            LocationID r = zt_PULocationID r /\
            In (zt_PULocationID r) ids /\
            zt_trips r = group_size Z.eqb (zt_PULocationID r) ids) t.
Proof.
  intros t ids. split; [|split].
  - rewrite /t /top_zones. apply List.firstn_le_length.
  - apply descending_firstn, sort_values_desc_descending.
  - apply List.Forall_forall. intros r Hr.
    apply firstn_In in Hr.
    apply (Permutation_in _ (sort_values_desc_perm _ _)) in Hr.
    apply merge_In in Hr. destruct Hr as (Hc & Hz & Heq).
    apply List.in_map_iff in Hc. destruct Hc as ([k n] & Hkn & Hin).
    apply groupby_size_In in Hin. destruct Hin as [Hk Hn].
    destruct r as [[id m] z]. simpl in *.
    injection Hkn as -> ->. by rewrite -Heq.
Qed.

(** ** Sorted distinct keys *)

Section SortUniqComplete.
Context {K : Type} (ltb : K -> K -> bool).
Hypothesis ltb_tri : forall x y, ltb x y = false -> ltb y x = false -> x = y.

Lemma insert_uniq_In_new (x : K) (l : list K) : In x (insert_uniq ltb x l).
Proof.
  induction l as [|y l IH]; simpl; first by left.
  destruct (ltb x y) eqn:Exy; first by left.
  destruct (ltb y x) eqn:Eyx; first by right.
  left. symmetry. by apply ltb_tri.
Qed.

Lemma insert_uniq_In_old (x y : K) (l : list K) :
  In y l -> In y (insert_uniq ltb x l).
Proof.
  induction l as [|z l IH]; simpl; first done.
  intros Hy. destruct (ltb x z); first by right.
  destruct (ltb z x); last done.
  destruct Hy as [->|Hy]; [by left | right; by apply IH].
Qed.

(** Every value of the key column is a group key. *)
Lemma In_sort_uniq (y : K) (l : list K) :
  In y l -> In y (sort_uniq ltb l).
Proof.
  induction l as [|x l IH]; simpl; first done.
  intros [->|Hy]; first apply insert_uniq_In_new.
  by apply insert_uniq_In_old, IH.
Qed.
End SortUniqComplete.

Lemma Z_ltb_tri (x y : Z) : (x <? y) = false -> (y <? x) = false -> x = y.
Proof. rewrite !Z.ltb_ge. lia. Qed.

Lemma pair_ltb_tri (x y : Z * Z) :
  pair_ltb x y = false -> pair_ltb y x = false -> x = y.
Proof.
  destruct x as [a b], y as [c d]. rewrite /pair_ltb /=.
  destruct (Z.ltb_spec a c), (Z.ltb_spec c a), (Z.eqb_spec a c),
    (Z.eqb_spec c a), (Z.ltb_spec b d), (Z.ltb_spec d b);
    simpl; intros; try done; try lia.
  f_equal; lia.
Qed.

Lemma string_ltb_tri (x y : string) :
  String.ltb x y = false -> String.ltb y x = false -> x = y.
Proof.
  rewrite /String.ltb (String.compare_antisym y x).
  destruct (String.compare x y) eqn:E; simpl; try done.
  intros _ _. by apply String.compare_eq_iff.
Qed.

Lemma pair_eqb_eq (x y : Z * Z) : pair_eqb x y = true <-> x = y.
Proof.
  destruct x as [a b], y as [c d].
  rewrite /pair_eqb /= andb_true_iff !Z.eqb_eq.
  split; [intros [-> ->]; done | intros [= -> ->]; done].
Qed.

Lemma insert_uniq_Z_sorted (x : Z) (l : list Z) :
  StronglySorted Z.lt l -> StronglySorted Z.lt (insert_uniq Z.ltb x l).
Proof.
  induction 1 as [|y l Hl IH Hy]; simpl; first by repeat constructor.
  destruct (Z.ltb_spec x y) as [Hxy|Hxy].
  - constructor; first by constructor.
    constructor; first done.
    eapply List.Forall_impl; last exact Hy. simpl. intros z Hz. lia.
  - destruct (Z.ltb_spec y x) as [Hyx|Hyx]; last by constructor.
    constructor; first done.
    apply List.Forall_forall. intros z Hz.
    destruct (insert_uniq_In _ _ _ _ Hz) as [->|Hz']; first done.
    rewrite List.Forall_forall in Hy. by apply Hy.
Qed.

Lemma sort_uniq_Z_sorted (l : list Z) :
  StronglySorted Z.lt (sort_uniq Z.ltb l).
Proof.
  induction l as [|x l IH]; simpl; first constructor.
  by apply insert_uniq_Z_sorted.
Qed.

Lemma sort_uniq_Z_In (h : Z) (l : list Z) :
  In h (sort_uniq Z.ltb l) <-> In h l.
Proof.
  split; [apply sort_uniq_In | apply In_sort_uniq, Z_ltb_tri].
Qed.

(** ** The day-by-hour table *)

Lemma weekday_order_Some (d : Z) (c : string) :
  weekday_order !! d = Some c ->
  0 <= d <= 6 /\ days_order !! Z.to_nat d = Some c.
Proof.
  intros H.
  assert (Hd : 0 <= d <= 6 \/ (d < 0 \/ 6 < d)) by lia.
  destruct Hd as [Hd|Hd].
  - split; first done.
    assert (Hc : d = 0 \/ d = 1 \/ d = 2 \/ d = 3 \/ d = 4 \/ d = 5 \/ d = 6)
      by lia.
    rewrite -H.
    destruct Hc as [->|[->|[->|[->|[->|[->| ->]]]]]]; reflexivity.
  - exfalso. revert H. rewrite /weekday_order.
    rewrite !lookup_insert_ne; try lia. by rewrite lookup_empty.
Qed.

Lemma weekday_order_total (d : Z) :
  0 <= d <= 6 ->
  exists c, weekday_order !! d = Some c /\ In c days_order.
Proof.
  intros Hd.
  assert (Hc : d = 0 \/ d = 1 \/ d = 2 \/ d = 3 \/ d = 4 \/ d = 5 \/ d = 6)
    by lia.
  destruct Hc as [->|[->|[->|[->|[->|[->| ->]]]]]];
    eexists; (split; first reflexivity); simpl; tauto.
Qed.

Lemma weekday_order_inj (d1 d2 : Z) (c : string) :
  weekday_order !! d1 = Some c -> weekday_order !! d2 = Some c -> d1 = d2.
Proof.
  intros H1 H2.
  apply weekday_order_Some in H1. apply weekday_order_Some in H2.
  destruct H1 as [R1 H1], H2 as [R2 H2].
  assert (NoDup days_order) as Hnd.
  { apply NoDup_ListNoDup. repeat constructor; simpl; intuition discriminate. }
  pose proof (NoDup_lookup _ _ _ _ Hnd H1 H2). lia.
Qed.

(** The names of the seven days are the entries of [weekday_order] for
    0, ..., 6, in this order. *)
Lemma days_order_weekday_order :
  List.map (fun d => weekday_order !! d) [0; 1; 2; 3; 4; 5; 6]
  = List.map Some days_order.
Proof. reflexivity. Qed.

Lemma trips_at_group_size (f : DataFrame NamedTrip) (d h : Z) :
  trips_at f d h
  = group_size pair_eqb (d, h) (day_hour_keys (add_day_of_week f)).
Proof.
  rewrite /trips_at /group_size /day_hour_keys add_day_of_week_map.
  do 2 f_equal.
  induction f as [|[i r] f IH]; simpl; first done.
  rewrite /pair_eqb /= (Z.eqb_sym d) (Z.eqb_sym h).
  destruct (_ && _); simpl; by rewrite IH.
Qed.

Lemma group_size_absent (k : Z * Z) (keys : list (Z * Z)) :
  ~ In k keys -> group_size pair_eqb k keys = 0.
Proof.
  intros Hk. rewrite /group_size.
  replace (List.filter (pair_eqb k) keys) with (@nil (Z * Z)); first done.
  symmetry. induction keys as [|x keys IH]; simpl; first done.
  destruct (pair_eqb k x) eqn:E.
  - apply pair_eqb_eq in E. subst. exfalso. apply Hk. by left.
  - apply IH. intros Hin. apply Hk. by right.
Qed.

(** The test that [pivot_cell] runs on a row of [bar_data] recognises the
    group of day [d] and hour [h] when [c] is the name of day [d]. *)
Lemma pivot_cell_test (d h : Z) (c : string) (k : Z * Z) (n : Z) :
  weekday_order !! d = Some c ->
  (bar_hour (bar_row (k, n)) =? h)
  && match pickup_day_name (bar_row (k, n)) with
     | Some x => String.eqb x c
     | None => false
     end
  = pair_eqb (d, h) k.
Proof.
  intros Hc. destruct k as [d' h']. rewrite /bar_row /pair_eqb /=.
  rewrite (Z.eqb_sym h' h) andb_comm. f_equal.
  destruct (Z.eqb_spec d d') as [<-|Hne].
  - by rewrite Hc String.eqb_refl.
  - destruct (weekday_order !! d') as [x|] eqn:E; last done.
    destruct (String.eqb_spec x c) as [->|]; last done.
    exfalso. apply Hne. by eapply weekday_order_inj.
Qed.

(** A cell of the filled pivot holds the size of its group, 0 when there
    is no such group. *)
Lemma pivot_cell_bar_data (f : DataFrame DayTrip) (d h : Z) (c : string) :
  weekday_order !! d = Some c ->
  default 0 (pivot_cell (bar_data f) h c)
  = group_size pair_eqb (d, h) (day_hour_keys f).
Proof.
  intros Hc. rewrite /pivot_cell /bar_data /groupby_size List.map_map.
  set (keys := day_hour_keys f).
  assert (Hsub : forall k, In k (sort_uniq pair_ltb keys) -> In k keys)
    by (intros k; apply sort_uniq_In).
  assert (Hsup : In (d, h) keys -> In (d, h) (sort_uniq pair_ltb keys))
    by apply In_sort_uniq, pair_ltb_tri.
  revert Hsub Hsup. generalize (sort_uniq pair_ltb keys).
  induction l as [|k l IH]; simpl; intros Hsub Hsup.
  - rewrite group_size_absent; last done. intros Hin. by apply Hsup in Hin.
  - rewrite (pivot_cell_test d h c k (group_size pair_eqb k keys) Hc).
    destruct (pair_eqb (d, h) k) eqn:E; simpl.
    + apply pair_eqb_eq in E. by subst.
    + apply IH; first by auto.
      intros Hin. destruct (Hsup Hin) as [->|]; last done.
      assert (pair_eqb (d, h) (d, h) = true) by by apply pair_eqb_eq.
      congruence.
Qed.

(** ** Selecting columns by label *)

Lemma position_In (c : string) (columns : list string) :
  In c columns ->
  exists j, position c columns = Some j /\
            forall (V : Type) (g : string -> V) (v : V),
              nth j (List.map g columns) v = g c.
Proof.
  induction columns as [|c' columns IH]; simpl; first done.
  intros Hin. destruct (String.eqb_spec c c') as [->|Hne].
  - by exists 0%nat.
  - destruct Hin as [?|Hin]; first congruence.
    destruct (IH Hin) as (j & -> & Hj). exists (S j). by split.
Qed.

Lemma position_None (c : string) (columns : list string) :
  ~ In c columns -> position c columns = None.
Proof.
  induction columns as [|c' columns IH]; simpl; first done.
  intros Hin. destruct (String.eqb_spec c c') as [->|Hne].
  - exfalso. apply Hin. by left.
  - rewrite IH; last done. intros H. apply Hin. by right.
Qed.

Lemma positions_In (labels columns : list string) :
  Forall (fun c => In c columns) labels ->
  exists js, mapM (fun c => position c columns) labels = Some js /\
             forall (V : Type) (g : string -> V) (v : V),
               List.map (fun j => nth j (List.map g columns) v) js
               = List.map g labels.
Proof.
  induction 1 as [|c labels Hc _ IH]; simpl.
  - by exists [].
  - destruct (position_In _ _ Hc) as (j & -> & Hj).
    destruct IH as (js & -> & Hjs). exists (j :: js). split; first done.
    intros V g v. simpl. by rewrite Hj Hjs.
Qed.

Lemma day_hour_keys_add (f : DataFrame NamedTrip) :
  day_hour_keys (add_day_of_week f)
  = List.map
      (fun ir : nat * NamedTrip =>
         (dt_dayofweek (tpep_pickup_datetime (snd ir)), pickup_hour (snd ir)))
      f.
Proof.
  by rewrite /day_hour_keys add_day_of_week_map List.map_map.
Qed.

(** The row labels of the pivot are the hours that occur in the subset,
    each once, in increasing order. *)
Lemma pivot_index_spec (f : DataFrame NamedTrip) :
  let index := pv_index (pivot (bar_data (add_day_of_week f))) in
  StronglySorted Z.lt index /\
  forall h, In h index <-> In h (col (fun r : NamedTrip => pickup_hour r) f).
Proof.
  simpl. split; first apply sort_uniq_Z_sorted.
  intros h. rewrite sort_uniq_Z_In /bar_data /groupby_size !List.map_map /=.
  rewrite day_hour_keys_add /col. split.
  - intros Hin. apply List.in_map_iff in Hin. destruct Hin as (k & <- & Hk).
    apply sort_uniq_In in Hk. apply List.in_map_iff in Hk.
    destruct Hk as (ir & <- & Hir). simpl.
    apply List.in_map_iff. by exists ir.
  - intros Hin. apply List.in_map_iff in Hin. destruct Hin as (ir & <- & Hir).
    apply List.in_map_iff.
    exists (dt_dayofweek (tpep_pickup_datetime (snd ir)), pickup_hour (snd ir)).
    split; first done.
    apply In_sort_uniq; first apply pair_ltb_tri.
    apply List.in_map_iff. by exists ir.
Qed.

(** The name of a day that occurs in the subset is a column of the
    pivot. *)
Lemma pivot_columns_day (f : DataFrame NamedTrip) (d : Z) (c : string) :
  In d (List.map dt_dayofweek
          (col (fun r : NamedTrip => tpep_pickup_datetime r) f)) ->
  weekday_order !! d = Some c ->
  In c (pv_columns (pivot (bar_data (add_day_of_week f)))).
Proof.
  intros Hd Hc. simpl. apply In_sort_uniq; first apply string_ltb_tri.
  rewrite map_col in Hd. apply List.in_map_iff in Hd.
  destruct Hd as (ir & <- & Hir).
  apply list_elem_of_In, list_elem_of_omap.
  exists (bar_row
            ((dt_dayofweek (tpep_pickup_datetime (snd ir)),
              pickup_hour (snd ir)),
             group_size pair_eqb
               (dt_dayofweek (tpep_pickup_datetime (snd ir)),
                pickup_hour (snd ir))
               (day_hour_keys (add_day_of_week f)))).
  split; last done.
  apply list_elem_of_In. rewrite /bar_data /groupby_size List.map_map.
  apply List.in_map_iff. eexists. split; first reflexivity.
  apply In_sort_uniq; first apply pair_ltb_tri.
  rewrite day_hour_keys_add. apply List.in_map_iff. by exists ir.
Qed.

(** Conversely a column of the pivot is the name of a day that occurs. *)
Lemma pivot_columns_only (f : DataFrame NamedTrip) (c : string) :
  In c (pv_columns (pivot (bar_data (add_day_of_week f)))) ->
  exists d, weekday_order !! d = Some c /\
            In d (List.map dt_dayofweek
                    (col (fun r : NamedTrip => tpep_pickup_datetime r) f)).
Proof.
  simpl. intros Hc. apply sort_uniq_In in Hc.
  apply list_elem_of_In, list_elem_of_omap in Hc.
  destruct Hc as (b & Hb & Hname). apply list_elem_of_In in Hb.
  rewrite /bar_data /groupby_size List.map_map in Hb.
  apply List.in_map_iff in Hb. destruct Hb as (k & <- & Hk).
  apply sort_uniq_In in Hk. rewrite day_hour_keys_add in Hk.
  apply List.in_map_iff in Hk. destruct Hk as (ir & <- & Hir).
  simpl in Hname. eexists. split; first exact Hname.
  rewrite map_col. apply List.in_map_iff. by exists ir.
Qed.

(** A strictly increasing list of integers between [a] and [b] has at
    most [b - a + 1] entries, and exactly that many when and only when it
    holds every integer from [a] to [b]. *)
Lemma sorted_range_length (l : list Z) (a b : Z) :
  a <= b + 1 -> StronglySorted Z.lt l -> Forall (fun x => a <= x <= b) l ->
  Z.of_nat (length l) <= b - a + 1.
Proof.
  intros Hab Hs. revert a Hab.
  induction Hs as [|x l Hs IH Hx]; intros a Hab Hr; simpl length.
  - simpl. lia.
  - inversion Hr as [|? ? Hxr Hlr]; subst.
    assert (Z.of_nat (length l) <= b - (x + 1) + 1); last lia.
    apply IH; first lia.
    rewrite List.Forall_forall in Hx. rewrite List.Forall_forall in Hlr.
    apply List.Forall_forall. intros y Hy.
    specialize (Hx y Hy). specialize (Hlr y Hy). lia.
Qed.

Lemma sorted_range_full (l : list Z) (a b : Z) :
  a <= b + 1 -> StronglySorted Z.lt l -> Forall (fun x => a <= x <= b) l ->
  (Z.of_nat (length l) = b - a + 1 <-> forall h, a <= h <= b -> In h l).
Proof.
  intros Hab Hs. revert a Hab.
  induction Hs as [|x l Hs IH Hx]; intros a Hab Hr.
  - simpl. split; first by (intros; lia).
    intros Hall. destruct (Z.eq_dec a (b + 1)) as [->|]; first lia.
    destruct (Hall a); lia.
  - inversion Hr as [|? ? Hxr Hlr]; subst.
    assert (Htail : Forall (fun y => x + 1 <= y <= b) l).
    { rewrite List.Forall_forall in Hx. rewrite List.Forall_forall in Hlr.
      apply List.Forall_forall. intros y Hy.
      specialize (Hx y Hy). specialize (Hlr y Hy). lia. }
    pose proof (sorted_range_length l (x + 1) b ltac:(lia) Hs Htail) as Hlen.
    specialize (IH (x + 1) ltac:(lia) Htail).
    rewrite List.Forall_forall in Htail.
    change (length (x :: l)) with (S (length l)). split.
    + intros Hfull. assert (x = a) as -> by lia.
      intros h Hh. destruct (Z.eq_dec h a) as [->|]; first by left.
      right. apply IH; lia.
    + intros Hall. assert (x = a) as ->.
      { destruct (Hall a ltac:(lia)) as [?|Hin]; first done.
        specialize (Htail a Hin). lia. }
      assert (Z.of_nat (length l) = b - (a + 1) + 1); last lia.
      apply IH. intros h Hh.
      destruct (Hall h ltac:(lia)) as [?|Hin]; [lia | done].
Qed.

(** The pickup hours of every working subset of the clean dataset are
    hours of the day. *)
Lemma hours_in_range_filtered (file : list RawTrip) (dr hr : Z * Z)
    (po : list string) :
  hours_in_range (filtered (decode_payment (load_data file)) dr hr po).
Proof.
  rewrite /hours_in_range.
  pose proof (pickup_hour_load_data file) as Hh.
  rewrite -(rows_decode_payment _) in Hh.
  apply (proj1 (List.Forall_map _ _ _)) in Hh.
  pose proof (Forall_rows_sublist _ _ _ (filtered_sublist _ dr hr po) Hh)
    as Hf.
  rewrite /col. apply List.Forall_map.
  rewrite /rows in Hf. by apply (proj1 (List.Forall_map _ _ _)) in Hf.
Qed.

(** C2 (as amended).  For a working subset in which every day of the week
    occurs, [bar_pivot] is a table with the seven columns Monday, ...,
    Sunday in this order and one row for each hour that occurs in the
    subset, in increasing order of the hour; the cell of a day and an hour
    is the number of trips of the subset on that day in that hour, hence
    0 where there is none.  With pickup hours between 0 and 23, as in every
    working subset, the table has 24 rows exactly when every hour of the
    day occurs in the subset. *)
Theorem bar_pivot_spec (f : DataFrame NamedTrip) :
  all_days_present f ->
  exists m,
    bar_pivot (add_day_of_week f) = Some m /\
    pv_columns m = days_order /\
    StronglySorted Z.lt (pv_index m) /\
    (forall h, In h (pv_index m)
               <-> In h (col (fun r : NamedTrip => pickup_hour r) f)) /\
    pv_values m
    = List.map
        (fun h => List.map (fun d => trips_at f d h) [0; 1; 2; 3; 4; 5; 6])
        (pv_index m) /\
    (hours_in_range f ->
     (length (pv_values m) = 24%nat <-> all_hours_present f)).
Proof.
  intros Hall.
  assert (Hcols : Forall
            (fun c => In c (pv_columns (pivot (bar_data (add_day_of_week f)))))
            days_order).
  { repeat constructor;
      [ apply (pivot_columns_day f 0) | apply (pivot_columns_day f 1)
      | apply (pivot_columns_day f 2) | apply (pivot_columns_day f 3)
      | apply (pivot_columns_day f 4) | apply (pivot_columns_day f 5)
      | apply (pivot_columns_day f 6) ];
      first [ reflexivity | apply Hall; lia ]. }
  destruct (positions_In _ _ Hcols) as (js & Hjs & Hsel).
  destruct (pivot_index_spec f) as [Hsorted Hindex].
  rewrite /bar_pivot /select_columns.
  change (pv_columns (pivot_fillna 0 ?p)) with (pv_columns p).
  rewrite Hjs. eexists. split; first reflexivity.
  split; first done. split; first exact Hsorted. split; first exact Hindex.
  split; last first.
  { intros Hrange. cbn [pv_values pv_index pivot_fillna].
    rewrite !List.length_map.
    change (length (sort_uniq Z.ltb
                      (List.map bar_hour (bar_data (add_day_of_week f)))))
      with (length (pv_index (pivot (bar_data (add_day_of_week f))))).
    assert (Hin : Forall (fun x => 0 <= x <= 23)
                    (pv_index (pivot (bar_data (add_day_of_week f))))).
    { apply List.Forall_forall. intros h Hh. apply Hindex in Hh.
      rewrite /hours_in_range List.Forall_forall in Hrange. by apply Hrange. }
    pose proof (sorted_range_full _ 0 23 ltac:(lia) Hsorted Hin) as Hfull.
    rewrite /all_hours_present. split.
    - intros Hlen h Hh. apply Hindex, Hfull; [lia | done].
    - intros Hhours.
      assert (Z.of_nat
                (length (pv_index (pivot (bar_data (add_day_of_week f)))))
              = 23 - 0 + 1); last lia.
      apply Hfull. intros h Hh. by apply Hindex, Hhours. }
  cbn [pv_values pv_index pivot_fillna pivot].
  rewrite !List.map_map. apply List.map_ext. intros h.
  rewrite List.map_map.
  rewrite (Hsel Z (fun c => default 0
                     (pivot_cell (bar_data (add_day_of_week f)) h c)) 0).
  rewrite /days_order. cbn [List.map]. rewrite !trips_at_group_size.
  rewrite (pivot_cell_bar_data _ 0 h "Monday" eq_refl).
  rewrite (pivot_cell_bar_data _ 1 h "Tuesday" eq_refl).
  rewrite (pivot_cell_bar_data _ 2 h "Wednesday" eq_refl).
  rewrite (pivot_cell_bar_data _ 3 h "Thursday" eq_refl).
  rewrite (pivot_cell_bar_data _ 4 h "Friday" eq_refl).
  rewrite (pivot_cell_bar_data _ 5 h "Saturday" eq_refl).
  by rewrite (pivot_cell_bar_data _ 6 h "Sunday" eq_refl).
Qed.

Lemma bar_pivot_spec_witness :
  exists m,
    bar_pivot (add_day_of_week week_subset) = Some m /\
    pv_columns m = days_order /\
    StronglySorted Z.lt (pv_index m) /\
    (forall h, In h (pv_index m)
               <-> In h (col (fun r : NamedTrip => pickup_hour r)
                             week_subset)) /\
    pv_values m
    = List.map
        (fun h => List.map (fun d => trips_at week_subset d h)
                           [0; 1; 2; 3; 4; 5; 6])
        (pv_index m) /\
    (hours_in_range week_subset ->
     (length (pv_values m) = 24%nat <-> all_hours_present week_subset)).
Proof.
  apply (bar_pivot_spec week_subset).
  intros d Hd. vm_compute. lia.
Defined.

(** C2 (counterexample).  In [week_subset] every day of the week occurs
    but all trips start in hour 12: the table has the seven columns and a
    single row, not 24. *)
Lemma bar_pivot_single_hour :
  bar_pivot (add_day_of_week week_subset)
  = Some {| pv_index := [12];
            pv_columns := days_order;
            pv_values := [[1; 1; 1; 1; 1; 1; 1]] |}
  /\ ~ exists m, bar_pivot (add_day_of_week week_subset) = Some m
                 /\ length (pv_index m) = 24%nat
                 /\ length (pv_values m) = 24%nat.
Proof.
  assert (H : bar_pivot (add_day_of_week week_subset)
              = Some {| pv_index := [12];
                        pv_columns := days_order;
                        pv_values := [[1; 1; 1; 1; 1; 1; 1]] |})
    by reflexivity.
  split; first exact H.
  intros (m & Hm & Hlen & _). rewrite H in Hm.
  injection Hm as <-. discriminate Hlen.
Qed.

(** When some day of the week has no trip in the subset, the selection of
    line 168 raises: the name of that day is not a column of the pivot. *)
Lemma bar_pivot_missing_day (f : DataFrame NamedTrip) (d : Z) :
  0 <= d <= 6 ->
  ~ In d (List.map dt_dayofweek
            (col (fun r : NamedTrip => tpep_pickup_datetime r) f)) ->
  bar_pivot (add_day_of_week f) = None.
Proof.
  intros Hd Hnot. rewrite /bar_pivot /select_columns.
  change (pv_columns (pivot_fillna 0 ?p)) with (pv_columns p).
  destruct (weekday_order_total d Hd) as (c & Hc & Hin).
  assert (Hnone : mapM (fun c => position c
                     (pv_columns (pivot (bar_data (add_day_of_week f)))))
                    days_order = None).
  { apply mapM_None. apply List.Exists_exists. exists c.
    split; first done.
    apply position_None. intros Hcol.
    destruct (pivot_columns_only f c Hcol) as (d' & Hd' & Hin').
    apply Hnot. by rewrite (weekday_order_inj d d' c Hc Hd'). }
  by rewrite Hnone.
Qed.

(** ** The store: which statements change which object *)

Section StoreFacts.
Import Script.


Lemma wf_bind (x : string) (o : Obj) (s : State) : wf s -> wf (bind x o s).
Proof.
  intros [Hlt Hinj]. split; simpl.
  - intros y l. destruct (decide (x = y)) as [->|Hne].
    + rewrite lookup_insert_eq. intros [= <-]. lia.
    + rewrite lookup_insert_ne; first done.
      intros H. apply Hlt in H. lia.
  - intros y z l.
    destruct (decide (x = y)) as [Hy|Hy], (decide (x = z)) as [Hz|Hz];
      subst; rewrite ?lookup_insert_eq; rewrite ?lookup_insert_ne; try done.
    + intros [= <-] H. apply Hlt in H. lia.
    + intros H [= <-]. apply Hlt in H. lia.
    + apply Hinj.
Qed.

Lemma wf_update (x : string) (f : Obj -> option Obj) (s s' : State) :
  wf s -> update x f s = Some s' -> wf s'.
Proof.
  rewrite /update. intros Hwf H.
  destruct (env s !! x); last done.
  destruct (heap s !! n); last done.
  destruct (f o); last done.
  injection H as <-. exact Hwf.
Qed.


(** Binding a name to a new object leaves the objects of the other names
    as they are. *)
Lemma deref_bind_other (x y : string) (o : Obj) (s : State) :
  wf s -> x <> y -> deref y (bind x o s) = deref y s.
Proof.
  intros [Hlt _] Hne. rewrite /deref /=.
  rewrite lookup_insert_ne; first done.
  destruct (env s !! y) as [l|] eqn:E; last done.
  apply Hlt in E. rewrite lookup_insert_ne; [lia | done].
Qed.

Lemma env_bind_other (x y : string) (o : Obj) (s : State) :
  x <> y -> env (bind x o s) !! y = env s !! y.
Proof. intros Hne. by rewrite /= lookup_insert_ne. Qed.

Lemma env_update (x y : string) (f : Obj -> option Obj) (s s' : State) :
  update x f s = Some s' -> env s' !! y = env s !! y.
Proof.
  rewrite /update. intros H.
  destruct (env s !! x); last done.
  destruct (heap s !! n); last done.
  destruct (f o); last done.
  by injection H as <-.
Qed.

(** An assignment through one name leaves the objects of the other names
    as they are: no two names share an object. *)
Lemma deref_update_other (x y : string) (f : Obj -> option Obj)
    (s s' : State) :
  wf s -> x <> y -> update x f s = Some s' -> deref y s' = deref y s.
Proof.
  intros [_ Hinj] Hne. rewrite /update /deref.
  destruct (env s !! x) as [l|] eqn:Ex; last done.
  destruct (heap s !! l) as [o|]; last done.
  destruct (f o) as [o'|]; last done.
  intros [= <-]. simpl.
  destruct (env s !! y) as [l'|] eqn:Ey; last done.
  rewrite lookup_insert_ne; last done.
  intros ->. apply Hne. by eapply Hinj.
Qed.


Lemma keeps_df_bind (x : string) (e : State -> option Obj) :
  x <> "df" ->
  keeps_df (fun s => match e s with
                     | Some o => Some (bind x o s)
                     | None => None
                     end).
Proof.
  intros Hne s s' Hwf H. destruct (e s) as [o|]; last done.
  injection H as <-. split; first by apply wf_bind.
  split; first by apply deref_bind_other.
  by apply env_bind_other.
Qed.

Lemma keeps_df_update (x : string) (f : Obj -> option Obj) :
  x <> "df" -> keeps_df (update x f).
Proof.
  intros Hne s s' Hwf H. split; first by eapply wf_update.
  split; first by eapply deref_update_other.
  by eapply env_update.
Qed.

Lemma keeps_df_ext (c c' : stmt) :
  (forall s, c s = c' s) -> keeps_df c' -> keeps_df c.
Proof. intros Heq Hc s s' Hwf H. rewrite Heq in H. by apply Hc. Qed.

Lemma keeps_df_line_72 (i : Inputs) : keeps_df (line_72 i).
Proof.
  eapply keeps_df_ext; last apply (keeps_df_bind "filtered_df"
    (fun s => match deref "df" s with
              | Some (ONamed d) =>
                  Some (ONamed (filtered_df d (payment_options i)))
              | _ => None
              end)); last done.
  intros s. rewrite /line_72. by destruct (deref "df" s) as [[]|].
Qed.

Lemma keeps_df_line_75_79 (i : Inputs) : keeps_df (line_75_79 i).
Proof.
  eapply keeps_df_ext; last apply (keeps_df_bind "filtered"
    (fun s => match deref "df" s with
              | Some (ONamed d) =>
                  Some (ONamed (filtered d (date_range i) (hour_range i)
                                  (payment_options i)))
              | _ => None
              end)); last done.
  intros s. rewrite /line_75_79. by destruct (deref "df" s) as [[]|].
Qed.

Lemma keeps_df_line_103_105 (i : Inputs) : keeps_df (line_103_105 i).
Proof.
  eapply keeps_df_ext; last apply (keeps_df_bind "top_zones"
    (fun s => match deref "filtered" s with
              | Some (ONamed d) => Some (OZones (top_zones d (zone_lookup i)))
              | _ => None
              end)); last done.
  intros s. rewrite /line_103_105. by destruct (deref "filtered" s) as [[]|].
Qed.

Lemma keeps_df_line_140_145 : keeps_df line_140_145.
Proof.
  eapply keeps_df_ext; last apply (keeps_df_bind "payment_counts"
    (fun s => match deref "filtered" s with
              | Some (ONamed d) => Some (OCounts (payment_counts d))
              | _ => None
              end)); last done.
  intros s. rewrite /line_140_145. by destruct (deref "filtered" s) as [[]|].
Qed.

Lemma keeps_df_line_153_154 : keeps_df line_153_154.
Proof. by apply keeps_df_update. Qed.

Lemma keeps_df_line_156_168 : keeps_df line_156_168.
Proof.
  eapply keeps_df_ext; last apply (keeps_df_bind "bar_pivot"
    (fun s => match deref "filtered" s with
              | Some (ODay d) =>
                  match bar_pivot d with
                  | Some p => Some (OPivot p)
                  | None => None
                  end
              | _ => None
              end)); last done.
  intros s. rewrite /line_156_168.
  destruct (deref "filtered" s) as [[]|]; try done.
  by destruct (bar_pivot d).
Qed.

Create HintDb frame.
#[local] Hint Resolve keeps_df_line_72 keeps_df_line_75_79
  keeps_df_line_103_105 keeps_df_line_140_145 keeps_df_line_153_154
  keeps_df_line_156_168 : frame.




End StoreFacts.

Section ScriptRuns.
Import Script.






End ScriptRuns.

(** * Further properties of the code *)

(** ** The filter: membership, ranges, composition *)

Lemma existsb_eqb_iff (x : string) (l : list string) :
  existsb (String.eqb x) l = true <-> In x l.
Proof.
  split; last apply existsb_eqb_In.
  intros H. apply List.existsb_exists in H. destruct H as (y & Hy & Heq).
  apply String.eqb_eq in Heq. by subst.
Qed.

Lemma selected_spec (dr hr : Z * Z) (po : list string) (r : NamedTrip) :
  selected dr hr po r = true <->
  fst dr <= pickup_date r <= snd dr /\
  fst hr <= pickup_hour r <= snd hr /\
  In (payment_name r) po.
Proof.
  rewrite /selected !andb_true_iff !Z.leb_le existsb_eqb_iff. tauto.
Qed.

(** X1.  A labelled row is in the working subset exactly when it is a row
    of the frame, its pickup date lies in the date range and its pickup
    hour in the hour range, both ends of both ranges included, and its
    payment name is one of the selected names. *)
Theorem filtered_In_iff (df : DataFrame NamedTrip) (date_range : Z * Z)
    (hour_range : Z * Z) (payment_options : list string)
    (i : nat) (r : NamedTrip) :
  In (i, r) (filtered df date_range hour_range payment_options) <->
  In (i, r) df /\
  fst date_range <= pickup_date r <= snd date_range /\
  fst hour_range <= pickup_hour r <= snd hour_range /\
  In (payment_name r) payment_options.
Proof.
  rewrite filtered_filter List.filter_In /= selected_spec. tauto.
Qed.

(** X2.  A date range or an hour range whose start lies after its end
    selects nothing: the subset is empty and nothing is raised. *)
Theorem filtered_inverted_range (df : DataFrame NamedTrip)
    (date_range hour_range : Z * Z) (payment_options : list string) :
  snd date_range < fst date_range \/ snd hour_range < fst hour_range ->
  filtered df date_range hour_range payment_options = [].
Proof.
  intros Hinv. rewrite filtered_filter. apply filter_none.
  apply List.Forall_forall. intros [i r] _. simpl.
  destruct (selected date_range hour_range payment_options r) eqn:E;
    last done.
  apply selected_spec in E. lia.
Qed.

Lemma filtered_inverted_range_witness :
  filtered (decode_payment (load_data sample_file)) (10, 4) (0, 23)
    ["Credit Card"; "Unknown"; "No Charge"] = [].
Proof.
  apply (filtered_inverted_range _ (10, 4) (0, 23)). left. simpl. lia.
Defined.

(** X3.  Selections compose by intersection: filtering a working subset
    again gives the rows within both date ranges, both hour ranges and
    with a payment name selected both times.  Hence two selections can be
    applied in either order, and applying the same selection twice changes
    nothing. *)
Theorem filtered_compose (df : DataFrame NamedTrip)
    (dr1 hr1 dr2 hr2 : Z * Z) (po1 po2 : list string) :
  filtered (filtered df dr1 hr1 po1) dr2 hr2 po2
  = filtered df
      (Z.max (fst dr1) (fst dr2), Z.min (snd dr1) (snd dr2))
      (Z.max (fst hr1) (fst hr2), Z.min (snd hr1) (snd hr2))
      (List.filter (fun x => existsb (String.eqb x) po2) po1) /\
  filtered (filtered df dr1 hr1 po1) dr2 hr2 po2
  = filtered (filtered df dr2 hr2 po2) dr1 hr1 po1 /\
  filtered (filtered df dr1 hr1 po1) dr1 hr1 po1 = filtered df dr1 hr1 po1.
Proof.
  rewrite !filtered_filter !filter_filter.
  split; [|split]; apply List.filter_ext; intros [i r]; simpl.
  - apply eq_true_iff_eq.
    rewrite andb_true_iff !selected_spec List.filter_In existsb_eqb_iff /=.
    split; intros H; decompose [and] H; repeat split; (done || lia).
  - apply andb_comm.
  - by destruct (selected dr1 hr1 po1 r).
Qed.

(** X4.  Widening the selection never loses a row: when each range
    contains the former one and every formerly selected payment name stays
    selected, the former subset is a subsequence of the new one. *)
Theorem filtered_monotone (df : DataFrame NamedTrip)
    (dr hr dr' hr' : Z * Z) (po po' : list string) :
  fst dr' <= fst dr -> snd dr <= snd dr' ->
  fst hr' <= fst hr -> snd hr <= snd hr' ->
  incl po po' ->
  sublist (filtered df dr hr po) (filtered df dr' hr' po').
Proof.
  intros H1 H2 H3 H4 Hincl.
  assert (Heq : filtered df dr hr po
                = List.filter (fun ir => selected dr hr po (snd ir))
                    (filtered df dr' hr' po')).
  { rewrite !filtered_filter filter_filter.
    apply List.filter_ext. intros [i r]. simpl.
    apply eq_true_iff_eq. rewrite andb_true_iff !selected_spec.
    split; last tauto.
    intros (Hd & Hh & Hp). specialize (Hincl _ Hp).
    repeat split; (lia || done). }
  rewrite Heq. apply filter_sublist.
Qed.

Lemma filtered_monotone_witness :
  sublist
    (filtered (decode_payment (load_data sample_file)) (5, 6) (9, 23)
       ["Unknown"])
    (filtered (decode_payment (load_data sample_file)) (4, 10) (0, 23)
       ["Credit Card"; "Unknown"]).
Proof.
  apply (filtered_monotone _ (5, 6) (9, 23) (4, 10) (0, 23));
    simpl; try lia.
  intros x [<-|[]]. right. by left.
Defined.

(** X5.  The frame [filtered_df] of line 72 contains the working subset:
    the working subset is [filtered_df] restricted to the date and hour
    ranges, with its rows in the same order. *)
Theorem filtered_within_filtered_df (df : DataFrame NamedTrip)
    (date_range hour_range : Z * Z) (payment_options : list string) :
  filtered df date_range hour_range payment_options
  = filtered (filtered_df df payment_options) date_range hour_range
      payment_options /\
  sublist (filtered df date_range hour_range payment_options)
          (filtered_df df payment_options).
Proof.
  assert (Hdf : filtered_df df payment_options
                = List.filter
                    (fun ir : nat * NamedTrip =>
                       existsb (String.eqb (payment_name (snd ir)))
                               payment_options) df).
  { by rewrite /filtered_df /isin map_col bool_index_col. }
  assert (Heq : filtered df date_range hour_range payment_options
                = filtered (filtered_df df payment_options) date_range
                    hour_range payment_options).
  { rewrite Hdf !filtered_filter filter_filter.
    apply List.filter_ext. intros [i r]. rewrite /selected /=.
    destruct (existsb _ payment_options); simpl; last by rewrite andb_false_r.
    by rewrite andb_true_r. }
  split; first exact Heq.
  rewrite Heq. apply filtered_sublist.
Qed.

(** ** Loading and the derived columns *)

Lemma rows_filter {A : Type} (p : A -> bool) (df : DataFrame A) :
  rows (List.filter (fun ir => p (snd ir)) df) = List.filter p (rows df).
Proof.
  rewrite /rows. induction df as [|[i r] df IH]; simpl; first done.
  destruct (p r); simpl; by rewrite IH.
Qed.

Lemma rows_read_rows {A : Type} (file : list A) : rows (read_rows file) = file.
Proof.
  rewrite /rows /read_rows. generalize 0%nat.
  induction file as [|x file IH]; intros n; simpl; first done.
  by rewrite IH.
Qed.

Lemma filter_map_comm {A B : Type} (f : A -> B) (p : B -> bool)
    (l : list A) :
  List.filter p (List.map f l)
  = List.map f (List.filter (fun x => p (f x)) l).
Proof.
  induction l as [|x l IH]; simpl; first done.
  destruct (p (f x)); simpl; by rewrite IH.
Qed.

Lemma list_filter_sublist {A : Type} (p : A -> bool) (l : list A) :
  sublist (List.filter p l) l.
Proof.
  induction l as [|x l IH]; simpl; first constructor.
  destruct (p x); by constructor.
Qed.

Lemma rows_load_data (file : list RawTrip) :
  rows (load_data file)
  = List.map derive_row
      (List.filter (fun r => in_boundsb (derive_row r)) file).
Proof.
  rewrite /load_data rows_reset_index sanitize_filter rows_filter.
  rewrite -filter_map_comm. f_equal.
  rewrite /rows /derive List.map_map /=.
  rewrite -(List.map_map snd derive_row). f_equal. apply rows_read_rows.
Qed.

(** X6.  The clean dataset consists of the derived rows of exactly those
    records of the file that pass the three bounds, in file order and with
    their raw fields as read; its labels are 0, 1, 2, ... without gaps, and
    it is never longer than the file. *)
Theorem load_data_rows (file : list RawTrip) :
  rows (load_data file)
  = List.map derive_row
      (List.filter (fun r => in_boundsb (derive_row r)) file) /\
  sublist (List.map raw (rows (load_data file))) file /\
  List.map fst (load_data file) = seq 0 (length (load_data file)) /\
  (length (load_data file) <= length file)%nat.
Proof.
  assert (Hsub : sublist (List.map raw (rows (load_data file))) file).
  { rewrite rows_load_data List.map_map /= List.map_id.
    apply list_filter_sublist. }
  split; first apply rows_load_data.
  split; first exact Hsub.
  split.
  - rewrite /load_data labels_reset_index. f_equal.
    by rewrite -(List.length_map fst (reset_index _)) labels_reset_index
         List.length_seq.
  - apply sublist_length in Hsub.
    by rewrite /rows !List.length_map in Hsub.
Qed.

Lemma fillna_not_nan (x : float) :
  PrimFloat.is_nan (fillna 0%float x) = false.
Proof. rewrite /fillna. by destruct (PrimFloat.is_nan x) eqn:E. Qed.

(** X7.  The derived [tip_pct] is never a missing value, before the
    cleaning step and after it: where the quotient of line 42 is missing
    the column holds 0. *)
Theorem tip_pct_never_missing (file : list RawTrip) :
  Forall (fun r : Trip => PrimFloat.is_nan (tip_pct r) = false)
         (rows (derive (read_rows file))) /\
  Forall (fun r : Trip => PrimFloat.is_nan (tip_pct r) = false)
         (rows (load_data file)).
Proof.
  assert (H : Forall (fun r : Trip => PrimFloat.is_nan (tip_pct r) = false)
                (rows (derive (read_rows file)))).
  { rewrite /rows /derive List.map_map. apply List.Forall_map.
    apply List.Forall_forall. intros x _. apply fillna_not_nan. }
  split; first exact H.
  rewrite /load_data rows_reset_index.
  eapply Forall_rows_sublist; last exact H.
  rewrite sanitize_filter. apply filter_sublist.
Qed.

Lemma derived_load_data (file : list RawTrip) :
  Forall (fun r : Trip => r = derive_row (raw r)) (rows (load_data file)).
Proof.
  rewrite rows_load_data. apply List.Forall_map.
  apply List.Forall_forall. by intros x _.
Qed.

(** X8.  In every working subset of the clean dataset the column
    [pickup_day_of_week] that line 154 adds repeats the column [pickup_day]
    of line 37; both are the weekday of [pickup_date], a number from 0 to
    6, and [pickup_hour] is a number from 0 to 23. *)
Theorem pickup_day_of_week_is_pickup_day (file : list RawTrip)
    (date_range hour_range : Z * Z) (payment_options : list string) :
  Forall (fun r : DayTrip =>
            pickup_day_of_week r = pickup_day r /\
            pickup_day r = (pickup_date r + 3) mod 7 /\
            0 <= pickup_day r <= 6 /\
            0 <= pickup_hour r <= 23)
    (rows (add_day_of_week
             (filtered (decode_payment (load_data file)) date_range
                hour_range payment_options))).
Proof.
  pose proof (derived_load_data file) as Hd.
  rewrite -(rows_decode_payment _) in Hd.
  apply (proj1 (List.Forall_map _ _ _)) in Hd.
  pose proof (Forall_rows_sublist _ _ _
                (filtered_sublist _ date_range hour_range payment_options) Hd)
    as Hf.
  rewrite add_day_of_week_map /rows List.map_map /=.
  rewrite /rows in Hf. apply List.Forall_map.
  apply (proj1 (List.Forall_map _ _ _)) in Hf.
  eapply List.Forall_impl; last exact Hf.
  intros [i r] Hr. simpl in *. rewrite Hr /=.
  repeat split; try apply dt_dayofweek_range; apply dt_hour_range.
Qed.

(** ** Payment names *)

Lemma payment_map_lookup (k : Z) :
  payment_map !! k
  = if k =? 1 then Some "Credit Card"
    else if k =? 2 then Some "Cash"
    else if k =? 3 then Some "No Charge"
    else if k =? 4 then Some "Dispute"
    else None.
Proof.
  rewrite /payment_map.
  destruct (Z.eqb_spec k 1) as [->|H1]; first done.
  rewrite lookup_insert_ne; first done.
  destruct (Z.eqb_spec k 2) as [->|H2]; first done.
  rewrite lookup_insert_ne; first done.
  destruct (Z.eqb_spec k 3) as [->|H3]; first done.
  rewrite lookup_insert_ne; first done.
  destruct (Z.eqb_spec k 4) as [->|H4]; first done.
  rewrite lookup_insert_ne; first done.
  apply lookup_empty.
Qed.

Lemma payment_name_cases (k : Z) :
  let name := default "Unknown" (payment_map !! k) in
  (k = 1 /\ name = "Credit Card") \/
  (k = 2 /\ name = "Cash") \/
  (k = 3 /\ name = "No Charge") \/
  (k = 4 /\ name = "Dispute") \/
  (~ 1 <= k <= 4 /\ name = "Unknown").
Proof.
  simpl. rewrite payment_map_lookup.
  destruct (Z.eqb_spec k 1); first by left.
  destruct (Z.eqb_spec k 2); first by right; left.
  destruct (Z.eqb_spec k 3); first by right; right; left.
  destruct (Z.eqb_spec k 4); first by right; right; right; left.
  right; right; right; right. split; [lia | done].
Qed.

(** X9.  Payment decoding gives "Credit Card", "Cash", "No Charge" and
    "Dispute" for the codes 1, 2, 3 and 4 and "Unknown" for every other
    code, and no other name: the name determines the code class and the
    code determines the name. *)
Theorem decode_payment_names (df : DataFrame Trip) :
  Forall (fun r : NamedTrip =>
            (payment_type r = 1 /\ payment_name r = "Credit Card") \/
            (payment_type r = 2 /\ payment_name r = "Cash") \/
            (payment_type r = 3 /\ payment_name r = "No Charge") \/
            (payment_type r = 4 /\ payment_name r = "Dispute") \/
            (~ 1 <= payment_type r <= 4 /\ payment_name r = "Unknown"))
    (rows (decode_payment df)).
Proof.
  rewrite decode_payment_map /rows List.map_map. apply List.Forall_map.
  apply List.Forall_forall. intros [i r] _. simpl.
  apply payment_name_cases.
Qed.

Lemma unique_In_iff (c : list string) (x : string) :
  In x (unique c) <-> In x c.
Proof.
  split; last apply unique_In.
  induction c as [|y c IH]; simpl; first done.
  intros [->|H]; first by left.
  apply List.filter_In in H. right. apply IH. tauto.
Qed.

Lemma unique_NoDup (c : list string) : List.NoDup (unique c).
Proof.
  induction c as [|y c IH]; simpl; first constructor.
  constructor.
  - intros H. apply List.filter_In in H. destruct H as [_ H].
    by rewrite String.eqb_refl in H.
  - by apply List.NoDup_filter.
Qed.

(** X10.  The payment types offered in the sidebar, [unique()] of the
    [payment_name] column, are exactly the names that occur in the clean
    dataset, each listed once; they are among the five names of the
    decoding, so there are at most five. *)
Theorem payment_options_offered (df : DataFrame Trip) :
  let options := unique (col payment_name (decode_payment df)) in
  List.NoDup options /\
  (forall x, In x options <-> In x (col payment_name (decode_payment df))) /\
  incl options ["Credit Card"; "Cash"; "No Charge"; "Dispute"; "Unknown"] /\
  (length options <= 5)%nat.
Proof.
  intros options.
  assert (Hnd : List.NoDup options) by apply unique_NoDup.
  assert (Hin : forall x, In x options
                  <-> In x (col payment_name (decode_payment df)))
    by (intros x; apply unique_In_iff).
  assert (Hfive : incl options
            ["Credit Card"; "Cash"; "No Charge"; "Dispute"; "Unknown"]).
  { intros x Hx. apply Hin in Hx.
    rewrite decode_payment_map /col List.map_map /= in Hx.
    apply List.in_map_iff in Hx. destruct Hx as ([i r] & <- & _).
    pose proof (payment_name_cases (payment_type r)) as Hc.
    simpl in *. intuition congruence. }
  split; first done. split; first done. split; first done.
  apply (List.NoDup_incl_length Hnd Hfive).
Qed.

(** ** Group keys: increasing and without repetition *)

Section SortUniqOrder.
Context {K : Type} (ltb : K -> K -> bool).
Hypothesis ltb_irrefl : forall x, ltb x x = false.
Hypothesis ltb_trans :
  forall x y z, ltb x y = true -> ltb y z = true -> ltb x z = true.
Hypothesis ltb_tri : forall x y, ltb x y = false -> ltb y x = false -> x = y.

Lemma insert_uniq_increasing (x : K) (l : list K) :
  increasing ltb l -> increasing ltb (insert_uniq ltb x l).
Proof.
  rewrite /increasing.
  induction 1 as [|y l Hl IH Hy]; simpl; first by repeat constructor.
  destruct (ltb x y) eqn:Exy.
  - constructor; first by constructor.
    constructor; first done.
    eapply List.Forall_impl; last exact Hy. simpl. intros z Hz.
    by eapply ltb_trans.
  - destruct (ltb y x) eqn:Eyx; last by constructor.
    constructor; first done.
    apply List.Forall_forall. intros z Hz.
    destruct (insert_uniq_In _ _ _ _ Hz) as [->|Hz']; first done.
    rewrite List.Forall_forall in Hy. by apply Hy.
Qed.

Lemma sort_uniq_increasing (l : list K) : increasing ltb (sort_uniq ltb l).
Proof.
  induction l as [|x l IH]; simpl; first constructor.
  by apply insert_uniq_increasing.
Qed.

Lemma increasing_NoDup (l : list K) : increasing ltb l -> List.NoDup l.
Proof.
  induction 1 as [|y l Hl IH Hy]; constructor; last done.
  intros Hin. rewrite List.Forall_forall in Hy.
  specialize (Hy y Hin). by rewrite ltb_irrefl in Hy.
Qed.

Lemma sort_uniq_NoDup (l : list K) : List.NoDup (sort_uniq ltb l).
Proof. apply increasing_NoDup, sort_uniq_increasing. Qed.
End SortUniqOrder.

Lemma Z_ltb_trans (x y z : Z) :
  (x <? y) = true -> (y <? z) = true -> (x <? z) = true.
Proof. rewrite !Z.ltb_lt. lia. Qed.

Lemma pair_ltb_irrefl (x : Z * Z) : pair_ltb x x = false.
Proof.
  destruct x as [a b]. rewrite /pair_ltb /= !Z.ltb_irrefl.
  by rewrite andb_false_r.
Qed.

Lemma pair_ltb_trans (x y z : Z * Z) :
  pair_ltb x y = true -> pair_ltb y z = true -> pair_ltb x z = true.
Proof.
  destruct x as [a b], y as [c d], z as [e f]. rewrite /pair_ltb /=.
  rewrite !orb_true_iff !andb_true_iff !Z.ltb_lt !Z.eqb_eq. lia.
Qed.

Lemma ascii_compare_refl (c : Ascii.ascii) : Ascii.compare c c = Eq.
Proof. rewrite /Ascii.compare. apply N.compare_refl. Qed.

Lemma string_compare_refl (s : string) : String.compare s s = Eq.
Proof.
  induction s as [|c s IH]; simpl; first done.
  by rewrite ascii_compare_refl.
Qed.

Lemma string_compare_trans (s1 s2 s3 : string) :
  String.compare s1 s2 = Lt -> String.compare s2 s3 = Lt ->
  String.compare s1 s3 = Lt.
Proof.
  revert s2 s3.
  induction s1 as [|c1 s1 IH]; intros [|c2 s2] [|c3 s3]; simpl; try done.
  destruct (Ascii.compare c1 c2) eqn:E12; try done.
  - apply Ascii.compare_eq_iff in E12. subst c2.
    destruct (Ascii.compare c1 c3); try done. apply IH.
  - intros _. destruct (Ascii.compare c2 c3) eqn:E23; try done.
    + apply Ascii.compare_eq_iff in E23. subst c3. by rewrite E12.
    + intros _. rewrite /Ascii.compare in E12, E23 |- *.
      rewrite N.compare_lt_iff in E12. rewrite N.compare_lt_iff in E23.
      assert (H : (Ascii.N_of_ascii c1 < Ascii.N_of_ascii c3)%N) by lia.
      apply N.compare_lt_iff in H. by rewrite H.
Qed.

Lemma string_ltb_irrefl (s : string) : String.ltb s s = false.
Proof. by rewrite /String.ltb string_compare_refl. Qed.

Lemma string_ltb_trans (x y z : string) :
  String.ltb x y = true -> String.ltb y z = true -> String.ltb x z = true.
Proof.
  rewrite /String.ltb.
  destruct (String.compare x y) eqn:E1; try done.
  destruct (String.compare y z) eqn:E2; try done.
  by rewrite (string_compare_trans _ _ _ E1 E2).
Qed.

(** ** Group sizes add up to the number of rows *)

Lemma sum_Z_app (l1 l2 : list Z) : sum_Z (l1 ++ l2) = sum_Z l1 + sum_Z l2.
Proof.
  rewrite /sum_Z. induction l1 as [|x l1 IH]; simpl; first done.
  rewrite IH. lia.
Qed.

Lemma sum_Z_perm (l1 l2 : list Z) : Permutation l1 l2 -> sum_Z l1 = sum_Z l2.
Proof.
  rewrite /sum_Z. induction 1; simpl; lia.
Qed.

Section GroupSizes.
Context {K : Type} (eqb : K -> K -> bool).
Hypothesis eqb_eq : forall x y, eqb x y = true <-> x = y.

Lemma group_size_cons (k x : K) (keys : list K) :
  group_size eqb k (x :: keys)
  = (if eqb k x then 1 else 0) + group_size eqb k keys.
Proof.
  rewrite /group_size /=. destruct (eqb k x); simpl length; lia.
Qed.

Lemma hits_absent (x : K) (ks : list K) :
  ~ In x ks ->
  sum_Z (List.map (fun k => if eqb k x then 1 else 0) ks) = 0.
Proof.
  induction ks as [|k ks IH]; simpl; first done.
  intros Hx. destruct (eqb k x) eqn:E.
  - apply eqb_eq in E. subst. exfalso. apply Hx. by left.
  - rewrite IH; last done. intros H. apply Hx. by right.
Qed.

Lemma hits_once (x : K) (ks : list K) :
  List.NoDup ks -> In x ks ->
  sum_Z (List.map (fun k => if eqb k x then 1 else 0) ks) = 1.
Proof.
  induction 1 as [|k ks Hk Hnd IH]; simpl; first done.
  intros [->|Hin].
  - rewrite (proj2 (eqb_eq x x) eq_refl). by rewrite hits_absent.
  - destruct (eqb k x) eqn:E.
    + apply eqb_eq in E. by subst.
    + by rewrite IH.
Qed.

(** Over distinct keys that cover the key column, the group sizes add up
    to the number of rows. *)
Lemma group_size_sum (ks keys : list K) :
  List.NoDup ks -> (forall x, In x keys -> In x ks) ->
  sum_Z (List.map (fun k => group_size eqb k keys) ks)
  = Z.of_nat (length keys).
Proof.
  intros Hnd. induction keys as [|x keys IH]; intros Hcover.
  - rewrite /group_size /=. induction ks as [|k ks IHk]; simpl; first done.
    inversion Hnd; subst. rewrite IHk; done.
  - assert (Hsplit :
      sum_Z (List.map (fun k => group_size eqb k (x :: keys)) ks)
      = sum_Z (List.map (fun k => if eqb k x then 1 else 0) ks)
        + sum_Z (List.map (fun k => group_size eqb k keys) ks)).
    { clear. induction ks as [|k ks IHk]; simpl; first done.
      rewrite IHk group_size_cons. lia. }
    rewrite Hsplit hits_once; [done | apply Hcover; by left |].
    rewrite IH; last (simpl length; lia).
    intros y Hy. apply Hcover. by right.
Qed.

Lemma group_size_pos (k : K) (keys : list K) :
  In k keys -> 1 <= group_size eqb k keys.
Proof.
  induction keys as [|x keys IH]; simpl; first done.
  rewrite group_size_cons. intros [->|Hin].
  - rewrite (proj2 (eqb_eq k k) eq_refl).
    rewrite /group_size. lia.
  - specialize (IH Hin). destruct (eqb k x); lia.
Qed.
End GroupSizes.

Lemma string_eqb_eq (x y : string) : String.eqb x y = true <-> x = y.
Proof. apply String.eqb_eq. Qed.

(** ** Payment type breakdown *)

(** X11.  The payment breakdown lists every payment name of the working
    subset exactly once, with the number of its trips, which is at least 1,
    in decreasing order of that number; the numbers add up to the "Total
    Trips" metric, and an empty subset gives an empty table. *)
Theorem payment_counts_spec (f : DataFrame NamedTrip) :
  let t := payment_counts f in
  let names := col payment_name f in
  descending snd t /\
  List.NoDup (List.map fst t) /\
  (forall name n, In (name, n) t <->
     In name names /\ n = group_size String.eqb name names) /\
  Forall (fun kn => 1 <= snd kn) t /\
  sum_Z (List.map snd t) = total_trips f /\
  (f = [] -> t = []).
Proof.
  intros t names.
  pose proof (sort_values_desc_perm snd
                (groupby_size String.ltb String.eqb names)) as Hperm.
  fold (payment_counts f) in Hperm. fold t in Hperm.
  assert (Hkeys : List.map fst (groupby_size String.ltb String.eqb names)
                  = sort_uniq String.ltb names).
  { rewrite /groupby_size List.map_map /=. apply List.map_id. }
  assert (Hin : forall name n, In (name, n) t <->
            In name names /\ n = group_size String.eqb name names).
  { intros name n. split.
    - intros H. apply (Permutation_in _ Hperm) in H.
      by apply groupby_size_In in H.
    - intros [Hname ->]. apply (Permutation_in _ (Permutation_sym Hperm)).
      rewrite /groupby_size. apply List.in_map_iff. exists name.
      split; first done. by apply In_sort_uniq; first apply string_ltb_tri. }
  split; first apply sort_values_desc_descending.
  split.
  { apply (Permutation_NoDup (Permutation_sym (Permutation_map fst Hperm))).
    rewrite Hkeys.
    apply sort_uniq_NoDup;
      [apply string_ltb_irrefl | apply string_ltb_trans]. }
  split; first exact Hin.
  split.
  { apply List.Forall_forall. intros [name n] Hkn. simpl.
    apply Hin in Hkn. destruct Hkn as [Hname ->].
    by apply group_size_pos; first apply string_eqb_eq. }
  split.
  { rewrite (sum_Z_perm _ _ (Permutation_map snd Hperm)).
    rewrite /groupby_size List.map_map /=.
    rewrite (group_size_sum String.eqb string_eqb_eq).
    - apply sort_uniq_NoDup;
        [apply string_ltb_irrefl | apply string_ltb_trans].
    - intros x Hx. by apply In_sort_uniq; first apply string_ltb_tri.
    - by rewrite /total_trips /names /col List.length_map. }
  by intros ->.
Qed.

(** ** Top pickup zones: which rows are kept *)

Lemma top_zones_unfold (f : DataFrame NamedTrip) (z : list ZoneRow) :
  top_zones f z
  = firstn 10 (sort_values_desc (fun r : TopZone => zt_trips r)
                 (merged_zones f z)).
Proof. reflexivity. Qed.

Lemma sorted_app_inv {A : Type} (R : A -> A -> Prop) (l1 l2 : list A) :
  StronglySorted R (l1 ++ l2) ->
  forall x y, In x l1 -> In y l2 -> R x y.
Proof.
  induction l1 as [|a l1 IH]; simpl; first done.
  intros Hs x y Hx Hy. inversion Hs as [|? ? Hs' Ha]; subst.
  destruct Hx as [<-|Hx]; last by eapply IH.
  rewrite List.Forall_forall in Ha. apply Ha.
  apply List.in_or_app. by right.
Qed.

(** X12.  [top_zones] keeps the rows of the merged table with the most
    trips: a merged row that is left out has at most as many trips as every
    row kept.  The table has ten rows when the merged table has more than
    ten and is a rearrangement of the whole merged table otherwise. *)
Theorem top_zones_keeps_largest (f : DataFrame NamedTrip)
    (zone_lookup : list ZoneRow) :
  let m := merged_zones f zone_lookup in
  let t := top_zones f zone_lookup in
  (forall r, In r m ->
     In r t \/ Forall (fun x : TopZone => zt_trips r <= zt_trips x) t) /\
  length t = Nat.min 10 (length m) /\
  ((length m <= 10)%nat -> Permutation t m).
Proof.
  intros m t.
  set (s := sort_values_desc (fun r : TopZone => zt_trips r) m).
  assert (Ht : t = firstn 10 s) by apply top_zones_unfold.
  assert (Hperm : Permutation s m) by apply sort_values_desc_perm.
  assert (Hsorted : descending (fun r : TopZone => zt_trips r) s)
    by apply sort_values_desc_descending.
  split; [|split].
  - intros r Hr. apply (Permutation_in _ (Permutation_sym Hperm)) in Hr.
    rewrite -(List.firstn_skipn 10 s) in Hr.
    apply List.in_app_or in Hr. destruct Hr as [Hr|Hr].
    + left. by rewrite Ht.
    + right. rewrite Ht. apply List.Forall_forall. intros x Hx.
      rewrite /descending -(List.firstn_skipn 10 s) in Hsorted.
      by apply (sorted_app_inv _ _ _ Hsorted x r).
  - rewrite Ht List.length_firstn. by rewrite (Permutation_length Hperm).
  - intros Hlen. rewrite Ht List.firstn_all2; last done.
    by rewrite (Permutation_length Hperm).
Qed.

Lemma list_filter_none {A : Type} (p : A -> bool) (l : list A) :
  Forall (fun x => p x = false) l -> List.filter p l = [].
Proof.
  induction 1 as [|x l Hx _ IH]; simpl; first done.
  by rewrite Hx.
Qed.

Lemma matches_at_most_one (k : Z) (right : list ZoneRow) :
  List.NoDup (List.map LocationID right) ->
  (length (List.filter (fun r => Z.eqb k (LocationID r)) right) <= 1)%nat.
Proof.
  induction right as [|r right IH]; simpl; first lia.
  intros Hnd. inversion Hnd as [|? ? Hr Hnd']; subst.
  destruct (Z.eqb_spec k (LocationID r)) as [->|Hne]; last by apply IH.
  simpl. rewrite list_filter_none; last (simpl; lia).
  apply List.Forall_forall. intros x Hx.
  apply Z.eqb_neq. intros Heq. apply Hr. rewrite Heq.
  by apply List.in_map.
Qed.

Lemma merge_ids_NoDup (left : list ZoneTrips) (right : list ZoneRow) :
  List.NoDup (List.map zt_PULocationID left) ->
  List.NoDup (List.map LocationID right) ->
  List.NoDup (List.map (fun r : TopZone => zt_PULocationID r)
                (merge left right)).
Proof.
  intros Hl Hr. rewrite /merge.
  induction left as [|l left IH]; simpl; first constructor.
  inversion Hl as [|? ? Hnot Hl']; subst.
  rewrite List.map_app. specialize (IH Hl').
  pose proof (matches_at_most_one (zt_PULocationID l) right Hr) as Hone.
  destruct (List.filter (fun r => zt_PULocationID l =? LocationID r) right)
    as [|r0 [|r1 rest]]; simpl in *; [done | | lia].
  constructor; last done.
  intros Hin. apply List.in_map_iff in Hin. destruct Hin as (x & Hx & Hin).
  apply merge_In in Hin. destruct Hin as (Hc & _ & _).
  apply Hnot. rewrite -Hx. by apply List.in_map.
Qed.

(** X13.  When the zone table lists each location once, no pickup zone
    appears twice in [top_zones]; every row counts at least one trip, and a
    pickup location of the subset that the zone table lists is a row of the
    merged table from which the top ten are taken. *)
Theorem top_zones_distinct (f : DataFrame NamedTrip)
    (zone_lookup : list ZoneRow) :
  List.NoDup (List.map LocationID zone_lookup) ->
  let ids := col (fun r : NamedTrip => PULocationID r) f in
  List.NoDup (List.map (fun r : TopZone => zt_PULocationID r)
                (top_zones f zone_lookup)) /\
  Forall (fun r : TopZone => 1 <= zt_trips r) (top_zones f zone_lookup) /\
  (forall id, In id ids -> In id (List.map LocationID zone_lookup) ->
     In id (List.map (fun r : TopZone => zt_PULocationID r)
              (merged_zones f zone_lookup))).
Proof.
  intros Hz ids.
  set (m := merged_zones f zone_lookup).
  assert (Hm : List.NoDup (List.map (fun r : TopZone => zt_PULocationID r) m)).
  { apply merge_ids_NoDup; last done.
    rewrite /groupby_size !List.map_map /= List.map_id.
    apply sort_uniq_NoDup; [apply Z.ltb_irrefl | apply Z_ltb_trans]. }
  split; [|split].
  - rewrite top_zones_unfold -List.firstn_map. fold m.
    set (s := sort_values_desc (fun r : TopZone => zt_trips r) m).
    assert (Hs : List.NoDup
                   (List.map (fun r : TopZone => zt_PULocationID r) s)).
    { eapply Permutation_NoDup; last exact Hm.
      apply Permutation_map, Permutation_sym, sort_values_desc_perm. }
    apply NoDup_ListNoDup.
    eapply sublist_NoDup; first by apply NoDup_ListNoDup.
    apply sublist_take.
  - apply List.Forall_forall. intros r Hr.
    rewrite top_zones_unfold in Hr. apply firstn_In in Hr.
    apply (Permutation_in _ (sort_values_desc_perm _ _)) in Hr.
    apply merge_In in Hr. destruct Hr as (Hc & _ & _).
    apply List.in_map_iff in Hc. destruct Hc as ([k n] & Hkn & Hin).
    apply groupby_size_In in Hin. destruct Hin as [Hk ->].
    rewrite -Hkn /=. apply group_size_pos; last done. apply Z.eqb_eq.
  - intros id Hid Hzone. apply List.in_map_iff in Hzone.
    destruct Hzone as (zr & <- & Hzr).
    apply List.in_map_iff.
    exists (mkTopZone
              (mkZoneTrips (LocationID zr)
                 (group_size Z.eqb (LocationID zr) ids)) zr).
    split; first done.
    rewrite /m /merged_zones /merge. apply List.in_flat_map.
    exists (mkZoneTrips (LocationID zr)
              (group_size Z.eqb (LocationID zr) ids)).
    split.
    + rewrite /groupby_size List.map_map /=. apply List.in_map_iff.
      exists (LocationID zr). split; first done.
      by apply In_sort_uniq; first apply Z_ltb_tri.
    + apply List.in_map. apply List.filter_In. split; first done.
      simpl. apply Z.eqb_refl.
Qed.

Lemma top_zones_distinct_witness :
  List.NoDup (List.map (fun r : TopZone => zt_PULocationID r)
                (top_zones (decode_payment (load_data sample_file))
                   sample_zones)).
Proof.
  apply (top_zones_distinct (decode_payment (load_data sample_file))
           sample_zones).
  repeat constructor; simpl; intuition discriminate.
Defined.

(** ** Average fare by hour *)

Lemma sort_values_asc_sorted {A : Type} (key : A -> Z) (l : list A) :
  StronglySorted (fun a b => key a < key b) l ->
  sort_values_asc key l = l.
Proof.
  induction 1 as [|x l Hl IH Hx]; simpl; first done.
  rewrite IH. destruct l as [|y l]; simpl; first done.
  inversion Hx; subst.
  destruct (Z.ltb_spec (key y) (key x)); [lia | done].
Qed.

Lemma sorted_map {A B : Type} (R : B -> B -> Prop) (f : A -> B)
    (l : list A) :
  StronglySorted R (List.map f l) ->
  StronglySorted (fun a b => R (f a) (f b)) l.
Proof.
  induction l as [|x l IH]; simpl; first constructor.
  inversion 1 as [|? ? Hs Hx]; subst.
  constructor; first by apply IH.
  by apply (proj1 (List.Forall_map _ _ _)) in Hx.
Qed.

(** X14.  The average-fare table is sparse: it has one row for each pickup
    hour that occurs in the working subset, in increasing order of the
    hour, and no row for an hour without trips; the value of a row is the
    mean of the fares of the trips of that hour, taken in row order.  This
    holds for any mean function. *)
Theorem avg_fare_hour_spec (mean : list float -> float)
    (f : DataFrame NamedTrip) :
  let t := avg_fare_hour mean f in
  let hours := col (fun r : NamedTrip => pickup_hour r) f in
  StronglySorted Z.lt (List.map fst t) /\
  (forall h, In h (List.map fst t) <-> In h hours) /\
  Forall (fun hv => snd hv = mean (hour_fares f (fst hv))) t /\
  (length t <= length f)%nat.
Proof.
  intros t hours.
  assert (Ht : t = List.map (fun h => (h, mean (hour_fares f h)))
                     (sort_uniq Z.ltb hours)).
  { rewrite /t /avg_fare_hour. apply sort_values_asc_sorted.
    apply sorted_map. rewrite List.map_map /= List.map_id.
    apply sort_uniq_Z_sorted. }
  assert (Hkeys : List.map fst t = sort_uniq Z.ltb hours).
  { by rewrite Ht List.map_map /= List.map_id. }
  split; first (rewrite Hkeys; apply sort_uniq_Z_sorted).
  split; first (intros h; rewrite Hkeys; apply sort_uniq_Z_In).
  split.
  - rewrite Ht. apply List.Forall_map. apply List.Forall_forall.
    by intros h _.
  - rewrite -(List.length_map fst t) Hkeys.
    replace (length f) with (length hours)
      by by rewrite /hours /col List.length_map.
    apply List.NoDup_incl_length.
    + apply sort_uniq_NoDup; [apply Z.ltb_irrefl | apply Z_ltb_trans].
    + intros h. apply sort_uniq_In.
Qed.

(** ** When the day-by-hour table can be built *)

Lemma bar_pivot_defined (f : DataFrame NamedTrip) :
  all_days_present f -> exists m, bar_pivot (add_day_of_week f) = Some m.
Proof.
  intros Hall.
  assert (Hcols : Forall
            (fun c => In c (pv_columns (pivot (bar_data (add_day_of_week f)))))
            days_order).
  { repeat constructor;
      [ apply (pivot_columns_day f 0) | apply (pivot_columns_day f 1)
      | apply (pivot_columns_day f 2) | apply (pivot_columns_day f 3)
      | apply (pivot_columns_day f 4) | apply (pivot_columns_day f 5)
      | apply (pivot_columns_day f 6) ];
      first [ reflexivity | apply Hall; lia ]. }
  destruct (positions_In _ _ Hcols) as (js & Hjs & _).
  rewrite /bar_pivot /select_columns.
  change (pv_columns (pivot_fillna 0 ?p)) with (pv_columns p).
  rewrite Hjs. by eexists.
Qed.

Lemma missing_day_dec (days : list Z) :
  (forall d, 0 <= d <= 6 -> In d days) \/
  (exists d, 0 <= d <= 6 /\ ~ In d days).
Proof.
  assert (Hdec : forall d, In d days \/ ~ In d days).
  { intros d. destruct (List.In_dec Z.eq_dec d days); [by left | by right]. }
  destruct (Hdec 0); last (right; exists 0; split; [lia | done]).
  destruct (Hdec 1); last (right; exists 1; split; [lia | done]).
  destruct (Hdec 2); last (right; exists 2; split; [lia | done]).
  destruct (Hdec 3); last (right; exists 3; split; [lia | done]).
  destruct (Hdec 4); last (right; exists 4; split; [lia | done]).
  destruct (Hdec 5); last (right; exists 5; split; [lia | done]).
  destruct (Hdec 6); last (right; exists 6; split; [lia | done]).
  left. intros d Hd.
  assert (Hc : d = 0 \/ d = 1 \/ d = 2 \/ d = 3 \/ d = 4 \/ d = 5 \/ d = 6)
    by lia.
  destruct Hc as [->|[->|[->|[->|[->|[->| ->]]]]]]; done.
Qed.

(** X15.  The selection of the seven day columns at line 168 raises
    exactly when some day of the week has no trip in the working subset;
    in particular it raises for the empty subset. *)
Theorem bar_pivot_raises_iff (f : DataFrame NamedTrip) :
  (bar_pivot (add_day_of_week f) = None <->
   exists d, 0 <= d <= 6 /\
     ~ In d (List.map dt_dayofweek
               (col (fun r : NamedTrip => tpep_pickup_datetime r) f))) /\
  bar_pivot (add_day_of_week []) = None.
Proof.
  split; last reflexivity. split.
  - intros Hnone.
    destruct (missing_day_dec
                (List.map dt_dayofweek
                   (col (fun r : NamedTrip => tpep_pickup_datetime r) f)))
      as [Hall|Hmiss]; last done.
    destruct (bar_pivot_defined f Hall) as (m & Hm). congruence.
  - intros (d & Hd & Hnot). by apply (bar_pivot_missing_day f d).
Qed.

(** ** Running the whole script *)

Section ScriptOutcome.
Import Script.






End ScriptOutcome.

(** ** Every trip is counted once in the day-by-hour table *)

Lemma bar_pivot_values (f : DataFrame NamedTrip) :
  all_days_present f ->
  bar_pivot (add_day_of_week f)
  = Some {| pv_index := pv_index (pivot (bar_data (add_day_of_week f)));
            pv_columns := days_order;
            pv_values :=
              List.map
                (fun h => List.map (fun d => trips_at f d h)
                                   [0; 1; 2; 3; 4; 5; 6])
                (pv_index (pivot (bar_data (add_day_of_week f)))) |}.
Proof.
  intros Hall.
  assert (Hcols : Forall
            (fun c => In c (pv_columns (pivot (bar_data (add_day_of_week f)))))
            days_order).
  { repeat constructor;
      [ apply (pivot_columns_day f 0) | apply (pivot_columns_day f 1)
      | apply (pivot_columns_day f 2) | apply (pivot_columns_day f 3)
      | apply (pivot_columns_day f 4) | apply (pivot_columns_day f 5)
      | apply (pivot_columns_day f 6) ];
      first [ reflexivity | apply Hall; lia ]. }
  destruct (positions_In _ _ Hcols) as (js & Hjs & Hsel).
  rewrite /bar_pivot /select_columns.
  change (pv_columns (pivot_fillna 0 ?p)) with (pv_columns p).
  rewrite Hjs. do 2 f_equal.
  cbn [pv_values pv_index pivot_fillna pivot].
  rewrite !List.map_map. apply List.map_ext. intros h.
  rewrite List.map_map.
  rewrite (Hsel Z (fun c => default 0
                     (pivot_cell (bar_data (add_day_of_week f)) h c)) 0).
  rewrite /days_order. cbn [List.map]. rewrite !trips_at_group_size.
  rewrite (pivot_cell_bar_data _ 0 h "Monday" eq_refl).
  rewrite (pivot_cell_bar_data _ 1 h "Tuesday" eq_refl).
  rewrite (pivot_cell_bar_data _ 2 h "Wednesday" eq_refl).
  rewrite (pivot_cell_bar_data _ 3 h "Thursday" eq_refl).
  rewrite (pivot_cell_bar_data _ 4 h "Friday" eq_refl).
  rewrite (pivot_cell_bar_data _ 5 h "Saturday" eq_refl).
  by rewrite (pivot_cell_bar_data _ 6 h "Sunday" eq_refl).
Qed.

Lemma trips_at_cons (i : nat) (r : NamedTrip) (f : DataFrame NamedTrip)
    (d h : Z) :
  trips_at ((i, r) :: f) d h
  = (if (dt_dayofweek (tpep_pickup_datetime r) =? d) && (pickup_hour r =? h)
     then 1 else 0)
    + trips_at f d h.
Proof.
  rewrite /trips_at /=. destruct (_ && _); simpl length; lia.
Qed.

Lemma trips_at_nonneg (f : DataFrame NamedTrip) (d h : Z) :
  0 <= trips_at f d h.
Proof. rewrite /trips_at. lia. Qed.

(** The seven cells of the row of hour [h] add up to the number of trips
    of that hour. *)
Lemma trips_at_week (f : DataFrame NamedTrip) (h : Z) :
  sum_Z (List.map (fun d => trips_at f d h) [0; 1; 2; 3; 4; 5; 6])
  = group_size Z.eqb h (col (fun r : NamedTrip => pickup_hour r) f).
Proof.
  induction f as [|[i r] f IH].
  - reflexivity.
  - rewrite /col /= group_size_cons -/(col _ f) -IH.
    rewrite /sum_Z /= !trips_at_cons (Z.eqb_sym h).
    pose proof (dt_dayofweek_range (tpep_pickup_datetime r)) as Hk.
    revert Hk. generalize (dt_dayofweek (tpep_pickup_datetime r)).
    intros k Hk.
    assert (Hc : k = 0 \/ k = 1 \/ k = 2 \/ k = 3 \/ k = 4 \/ k = 5 \/ k = 6)
      by lia.
    destruct (pickup_hour r =? h);
      destruct Hc as [->|[->|[->|[->|[->|[->| ->]]]]]]; simpl; lia.
Qed.

Lemma sorted_Z_NoDup (l : list Z) : StronglySorted Z.lt l -> List.NoDup l.
Proof.
  induction 1 as [|x l Hl IH Hx]; constructor; last done.
  intros Hin. rewrite List.Forall_forall in Hx. specialize (Hx x Hin). lia.
Qed.

(** X18.  When the day-by-hour table is built, its cells are non-negative
    counts, the cells of the row of an hour add up to the number of trips
    of the working subset in that hour, and all cells together add up to
    the "Total Trips" metric: every trip is counted in exactly one cell. *)
Theorem bar_pivot_counts_every_trip (f : DataFrame NamedTrip) :
  all_days_present f ->
  exists m,
    bar_pivot (add_day_of_week f) = Some m /\
    Forall (Forall (fun c => 0 <= c)) (pv_values m) /\
    List.map sum_Z (pv_values m)
    = List.map
        (fun h => group_size Z.eqb h
                    (col (fun r : NamedTrip => pickup_hour r) f))
        (pv_index m) /\
    sum_Z (List.map sum_Z (pv_values m)) = total_trips f.
Proof.
  intros Hall. eexists. split; first by apply bar_pivot_values.
  cbn [pv_values pv_index].
  set (index := pv_index (pivot (bar_data (add_day_of_week f)))).
  assert (Hrows :
    List.map sum_Z
      (List.map (fun h => List.map (fun d => trips_at f d h)
                                   [0; 1; 2; 3; 4; 5; 6]) index)
    = List.map
        (fun h => group_size Z.eqb h
                    (col (fun r : NamedTrip => pickup_hour r) f)) index).
  { rewrite List.map_map. apply List.map_ext. intros h.
    apply trips_at_week. }
  split; [|split].
  - apply List.Forall_map. apply List.Forall_forall. intros h _.
    repeat constructor; apply trips_at_nonneg.
  - exact Hrows.
  - rewrite Hrows.
    destruct (pivot_index_spec f) as [Hsorted Hindex].
    rewrite (group_size_sum Z.eqb Z.eqb_eq).
    + by apply sorted_Z_NoDup.
    + intros x Hx. by apply Hindex.
    + by rewrite /total_trips /col List.length_map.
Qed.

Lemma bar_pivot_counts_every_trip_witness :
  exists m,
    bar_pivot (add_day_of_week week_subset) = Some m /\
    Forall (Forall (fun c => 0 <= c)) (pv_values m) /\
    List.map sum_Z (pv_values m)
    = List.map
        (fun h => group_size Z.eqb h
                    (col (fun r : NamedTrip => pickup_hour r) week_subset))
        (pv_index m) /\
    sum_Z (List.map sum_Z (pv_values m)) = total_trips week_subset.
Proof.
  apply (bar_pivot_counts_every_trip week_subset).
  intros d Hd. vm_compute. lia.
Defined.

(** ** Cleaning is record by record; dates as time intervals *)

(** X19.  Whether a record survives loading does not depend on the other
    records of the file: the clean rows of two files put one after the
    other are the clean rows of the first followed by those of the second,
    and the clean dataset of a file without a record in bounds is empty. *)
Theorem load_data_app (file1 file2 : list RawTrip) :
  rows (load_data (file1 ++ file2))
  = (rows (load_data file1) ++ rows (load_data file2))%list /\
  (Forall (fun r => in_boundsb (derive_row r) = false) file1 ->
   load_data file1 = []) /\
  load_data [] = [].
Proof.
  split; [|split].
  - by rewrite !rows_load_data List.filter_app List.map_app.
  - intros Hnone.
    assert (H : rows (load_data file1) = []).
    { rewrite rows_load_data list_filter_none; done. }
    rewrite /rows in H. by destruct (load_data file1).
  - reflexivity.
Qed.

Lemma dt_date_interval (t lo hi : Z) :
  lo <= dt_date t <= hi <-> lo * day_ticks <= t < (hi + 1) * day_ticks.
Proof.
  rewrite /dt_date /day_ticks /pps.
  set (D := 86400 * 1000000000).
  assert (HD : 0 < D) by (rewrite /D; lia).
  pose proof (Z.div_mod t D ltac:(lia)) as Hdm.
  pose proof (Z.mod_pos_bound t D HD) as Hmod.
  split; intros H; nia.
Qed.

(** X20.  On the clean dataset the date range selects by time interval: a
    row is in the working subset exactly when its pickup time lies from
    the start of the first day of the range up to, but not including, the
    start of the day after its last day, its pickup hour is in the hour
    range and its payment name is selected. *)
Theorem filtered_by_pickup_time (file : list RawTrip)
    (date_range hour_range : Z * Z) (payment_options : list string)
    (i : nat) (r : NamedTrip) :
  let df := decode_payment (load_data file) in
  In (i, r) (filtered df date_range hour_range payment_options) <->
  In (i, r) df /\
  fst date_range * day_ticks <= tpep_pickup_datetime r
    < (snd date_range + 1) * day_ticks /\
  fst hour_range <= pickup_hour r <= snd hour_range /\
  In (payment_name r) payment_options.
Proof.
  intros df.
  assert (Hdate : In (i, r) df ->
            pickup_date r = dt_date (tpep_pickup_datetime r)).
  { intros Hin. pose proof (derived_load_data file) as Hd.
    rewrite -(rows_decode_payment _) -/df in Hd.
    apply (proj1 (List.Forall_map _ _ _)) in Hd.
    rewrite /rows in Hd. apply (proj1 (List.Forall_map _ _ _)) in Hd.
    rewrite List.Forall_forall in Hd. specialize (Hd _ Hin). simpl in Hd.
    by rewrite Hd. }
  rewrite filtered_filter List.filter_In /= selected_spec.
  split.
  - intros (Hin & Hd & Hrest). split; first done.
    rewrite (Hdate Hin) in Hd. apply dt_date_interval in Hd. tauto.
  - intros (Hin & Hd & Hrest). split; first done.
    apply dt_date_interval in Hd. rewrite (Hdate Hin). tauto.
Qed.
